(** * Biometrics attendance: the time-aggregation engine

    A shallow embedding of [backend/services/time_calculator.py], of the
    classifier of [backend/config.py] and of the per-day colour of
    [backend/services/report_generator.py], with the properties the
    specification states about them.

    Conventions of the embedding:
    - a [datetime.time] is a record of its four fields, ordered
      lexicographically as Python orders naive times; a time object is
      always truthy (Python 3.5 and later);
    - a [datetime.date] is its proleptic Gregorian ordinal
      ([date.toordinal()]), a [timedelta(days=k)] is the integer [k]; the
      limits of Python's date type (years 1 to 9999) are not modelled;
    - Python integers are [Z]; a float is the rational it denotes ([Q]).
      The percentages the program stores are computed as it computes
      them, in binary64: [fl] rounds a rational to the nearest double,
      ties to even, [float_percent a b] is [(a / b) * 100] with its two
      roundings, and [round(x, 2)] takes the exact value of the double to
      the nearest hundredth, ties to even; the double nearest to that
      hundredth, which Python returns, is identified with the hundredth.
      The exponent range of the doubles (overflow, subnormal numbers) is
      not modelled;
    - the comparisons of a percentage with the thresholds are made on the
      exact quotient [percent_of]: the double of the program gives the
      same colour for every week of less than 20000 expected minutes
      ([status_float_exact]);
    - a [dict] is a [gmap], a [set] is a [gset], [sorted] is a merge sort. *)

From Stdlib Require Import ZArith QArith Qround Qabs Qpower Lia Lqa.
From stdpp Require Import gmap strings list sorting fin_maps pretty.

Local Open Scope Z_scope.

(** ** Times of day *)

Record time := mkTime {
  hour : Z;
  minute : Z;
  second : Z;
  microsecond : Z
}.

#[global] Instance time_eq_dec : EqDecision time.
Proof. solve_decision. Defined.

(** What the constructor of [datetime.time] accepts. *)
Definition valid_time (t : time) : Prop :=
  0 <= hour t < 24 /\ 0 <= minute t < 60 /\
  0 <= second t < 60 /\ 0 <= microsecond t < 1000000.

(** A time read from an [HH:MM] cell. *)
Definition whole_minute (t : time) : Prop :=
  second t = 0 /\ microsecond t = 0.

(** [time(h, m)] and [time(h, m, s)] *)
Definition hm (h m : Z) : time := mkTime h m 0 0.
Definition hms (h m s : Z) : time := mkTime h m s 0.

(** [a < b] on naive times: lexicographic on hour, minute, second,
    microsecond. *)
Definition time_lt (a b : time) : Prop :=
  hour a < hour b \/
  (hour a = hour b /\
   (minute a < minute b \/
    (minute a = minute b /\
     (second a < second b \/
      (second a = second b /\ microsecond a < microsecond b))))).

Definition time_le (a b : time) : Prop := a = b \/ time_lt a b.

#[global] Instance time_lt_dec : RelDecision time_lt.
Proof. intros a b. unfold time_lt. apply _. Defined.

#[global] Instance time_le_dec : RelDecision time_le.
Proof. intros a b. unfold time_le. apply _. Defined.

(** [sorted(times)] *)
Definition sorted (l : list time) : list time := merge_sort time_le l.

(** [min(times) if times else None]: the first smallest element. *)
Definition py_min (l : list time) : option time :=
  match l with
  | [] => None
  | x :: l' => Some (fold_left (fun m y => if decide (time_lt y m) then y else m) l' x)
  end.

(** [max(times) if times else None]: the first largest element. *)
Definition py_max (l : list time) : option time :=
  match l with
  | [] => None
  | x :: l' => Some (fold_left (fun m y => if decide (time_lt m y) then y else m) l' x)
  end.

(** ** TimeCalculator: minutes and pairing *)

Definition time_minutes (t : time) : Z := hour t * 60 + minute t.

(** [_time_to_minutes]: [0] for [None], else [t.hour * 60 + t.minute]. *)
Definition _time_to_minutes (t : option time) : Z :=
  match t with
  | None => 0
  | Some t => hour t * 60 + minute t
  end.

(** The inner loop of [_calculate_from_pairs] for one [in_time], scanning
    [enumerate(sorted_outs)] from index [i]: the index added to
    [used_outs] and the duration added to the total at the [break], or
    [None] when the loop runs to its end. *)
Fixpoint scan_outs (in_time : time) (used_outs : gset nat) (i : nat)
    (outs : list time) : option (nat * Z) :=
  match outs with
  | [] => None
  | out_time :: rest =>
      if decide (i ∈ used_outs) then scan_outs in_time used_outs (S i) rest
      else if decide (time_lt in_time out_time) then
        let in_minutes := _time_to_minutes (Some in_time) in
        let out_minutes := _time_to_minutes (Some out_time) in
        let duration := out_minutes - in_minutes in
        if decide (0 < duration) then Some (i, duration)
        else scan_outs in_time used_outs (S i) rest
      else scan_outs in_time used_outs (S i) rest
  end.

(** The outer loop: the state is [(total_minutes, used_outs)]. *)
Definition pair_step (sorted_outs : list time) (st : Z * gset nat)
    (in_time : time) : Z * gset nat :=
  match scan_outs in_time st.2 0 sorted_outs with
  | Some (i, duration) => (st.1 + duration, {[i]} ∪ st.2)
  | None => st
  end.

Definition _calculate_from_pairs (in_times out_times : list time) : Z :=
  match in_times, out_times with
  | [], _ | _, [] => 0
  | _, _ =>
      let sorted_ins := sorted in_times in
      let sorted_outs := sorted out_times in
      (fold_left (pair_step sorted_outs) sorted_ins (0, ∅)).1
  end.

(** ** TimeCalculator: pairs for display *)

(** [t.strftime('%H:%M')] *)
Definition pad2 (n : Z) : string :=
  if decide (n < 10) then "0" +:+ pretty n else pretty n.

Definition strftime_HM (t : time) : string :=
  pad2 (hour t) +:+ ":" +:+ pad2 (minute t).

(** [f"{minutes // 60}h {minutes % 60}m"] *)
Definition format_minutes (minutes : Z) : string :=
  pretty (minutes / 60) +:+ "h " +:+ pretty (minutes mod 60) +:+ "m".

(** One entry of the display list: the keys ['in'], ['out'], ['duration']. *)
Record Pair := mkPair {
  pair_in : option string;
  pair_out : option string;
  pair_duration : option string
}.

#[global] Instance Pair_eq_dec : EqDecision Pair.
Proof. solve_decision. Defined.

(** The inner loop of [_create_pairs]: the first unused OUT later than
    [in_time], with its index; there is no test on the duration here. *)
Fixpoint scan_outs_display (in_time : time) (used_outs : gset nat) (i : nat)
    (outs : list time) : option (nat * time) :=
  match outs with
  | [] => None
  | out_time :: rest =>
      if decide (i ∈ used_outs) then scan_outs_display in_time used_outs (S i) rest
      else if decide (time_lt in_time out_time) then Some (i, out_time)
      else scan_outs_display in_time used_outs (S i) rest
  end.

Definition display_step (sorted_outs : list time) (st : list Pair * gset nat)
    (in_time : time) : list Pair * gset nat :=
  match scan_outs_display in_time st.2 0 sorted_outs with
  | Some (i, out_time) =>
      let duration :=
        _time_to_minutes (Some out_time) - _time_to_minutes (Some in_time) in
      (st.1 ++ [mkPair (Some (strftime_HM in_time))
                       (Some (strftime_HM out_time))
                       (Some (format_minutes duration))],
       {[i]} ∪ st.2)
  | None => (st.1 ++ [mkPair (Some (strftime_HM in_time)) None None], st.2)
  end.

Definition _create_pairs (in_times out_times : list time) : list Pair :=
  let sorted_ins := match in_times with [] => [] | _ => sorted in_times end in
  let sorted_outs := match out_times with [] => [] | _ => sorted out_times end in
  (fold_left (display_step sorted_outs) sorted_ins ([], ∅)).1.

(** ** TimeCalculator: the summary of one day *)

Inductive AttendanceStatus := PRESENT | ABSENT | PARTIAL.

#[global] Instance AttendanceStatus_eq_dec : EqDecision AttendanceStatus.
Proof. solve_decision. Defined.

(** A record of the parser; [date] is an ordinal. The keys the calculator
    never reads (name, shift, late and overtime minutes) are left out. *)
Record PunchRecord := mkPunch {
  r_code : string;
  r_date : Z;
  r_in_time : option time;
  r_out_time : option time;
  r_total_time : option time;
  r_remark : option string
}.

(** The dictionary [_calculate_day_summary] returns; [in_out_pairs] is
    the list that the code serialises with [json.dumps]. *)
Record DailySummary := mkDaily {
  total_office_minutes : Z;
  status : AttendanceStatus;
  first_in : option time;
  last_out : option time;
  in_out_pairs : option (list Pair);
  remark : option string
}.

#[global] Instance DailySummary_eq_dec : EqDecision DailySummary.
Proof. solve_decision. Defined.

(** Python truthiness of [record.get('remark')]. *)
Definition truthy_str (s : option string) : bool :=
  match s with
  | Some s => if decide (s = "") then false else true
  | None => false
  end.

(** The four variables the loop over [day_records] updates. *)
Record DayState := mkDayState {
  in_times : list time;
  out_times : list time;
  total_from_device : option time;
  last_remark : option string
}.

Definition day_step (st : DayState) (record : PunchRecord) : DayState :=
  {| in_times :=
       match r_in_time record with
       | Some t => in_times st ++ [t]
       | None => in_times st
       end;
     out_times :=
       match r_out_time record with
       | Some t => out_times st ++ [t]
       | None => out_times st
       end;
     total_from_device :=
       match r_total_time record, total_from_device st with
       | Some t, None => Some t
       | _, _ => total_from_device st
       end;
     last_remark :=
       if truthy_str (r_remark record) then r_remark record
       else last_remark st |}.

Definition day_loop (day_records : list PunchRecord) : DayState :=
  fold_left day_step day_records (mkDayState [] [] None None).

Definition _calculate_day_summary (day_records : list PunchRecord) : DailySummary :=
  let st := day_loop day_records in
  let total_minutes :=
    match total_from_device st with
    | Some t => _time_to_minutes (Some t)
    | None => _calculate_from_pairs (in_times st) (out_times st)
    end in
  let status := if decide (360 <= total_minutes) then PRESENT else ABSENT in
  let pairs := _create_pairs (in_times st) (out_times st) in
  {| total_office_minutes := total_minutes;
     status := status;
     first_in := py_min (in_times st);
     last_out := py_max (out_times st);
     in_out_pairs := match pairs with [] => None | _ => Some pairs end;
     remark := last_remark st |}.

(** [calculate_daily_summary]: group the records by employee code and
    date, in input order, and summarise every group. *)
Definition group_step (groups : gmap string (gmap Z (list PunchRecord)))
    (record : PunchRecord) : gmap string (gmap Z (list PunchRecord)) :=
  let date_records := default ∅ (groups !! r_code record) in
  let day_records := default [] (date_records !! r_date record) in
  <[r_code record := <[r_date record := day_records ++ [record]]> date_records]> groups.

Definition calculate_daily_summary (records : list PunchRecord)
    : gmap string (gmap Z DailySummary) :=
  let groups : gmap string (gmap Z (list PunchRecord)) :=
    fold_left group_step records ∅ in
  (fun date_records : gmap Z (list PunchRecord) =>
     _calculate_day_summary <$> date_records) <$> groups.

(** ** Percentages *)

#[global] Instance Qlt_dec : RelDecision Qlt.
Proof.
  intros x y. destruct (Qlt_le_dec x y) as [H|H]; [left; exact H|right].
  apply Qle_not_lt. exact H.
Defined.

#[global] Instance Qle_dec : RelDecision Qle.
Proof.
  intros x y. destruct (Qlt_le_dec y x) as [H|H]; [right|left; exact H].
  apply Qlt_not_le. exact H.
Defined.

(** [round(x)] to the nearest integer, ties to even. *)
Definition round_half_even (x : Q) : Z :=
  let f := Qfloor x in
  match Qcompare (x - inject_Z f) (1 # 2) with
  | Lt => f
  | Gt => f + 1
  | Eq => if Z.even f then f else f + 1
  end.

(** [round(x, 2)] of the double whose exact value is [x]: the nearest
    hundredth, ties to even. *)
Definition py_round2 (x : Q) : Q :=
  Qred (inject_Z (round_half_even (x * 100)) / 100).

(** The exact value of [(a / b) * 100] on integers. *)
Definition percent_of (a b : Z) : Q := (inject_Z a / inject_Z b) * 100.

(** ** Doubles *)

(** The exponent of a positive rational: [2 ^ ilog2 a <= a < 2 ^ (ilog2 a + 1)]. *)
Definition ilog2 (a : Q) : Z :=
  let l := Z.log2 (Qnum a) - Z.log2 (Z.pos (Qden a)) in
  if decide (2 ^ l <= a)%Q then l else l - 1.

(** The double nearest to a positive rational, ties to even: a
    significand of 53 bits at the exponent of the rational. *)
Definition fl_pos (a : Q) : Q :=
  let sh := ilog2 a - 52 in
  (inject_Z (round_half_even (a / 2 ^ sh)) * 2 ^ sh)%Q.

(** The double nearest to a rational. *)
Definition fl (q : Q) : Q :=
  if decide (0 < q)%Q then fl_pos q
  else if decide (q < 0)%Q then (- fl_pos (- q))%Q
  else 0%Q.

(** [(a / b) * 100] as Python computes it on integers: the quotient
    rounded to a double, and its product with 100 rounded again. *)
Definition float_percent (a b : Z) : Q :=
  fl (fl (inject_Z a / inject_Z b) * 100).


(** ** The classifiers *)

Inductive ComplianceStatus := RED | AMBER | GREEN.

#[global] Instance ComplianceStatus_eq_dec : EqDecision ComplianceStatus.
Proof. solve_decision. Defined.

(** [config.Settings]: the work policy fields. *)
Record Settings := mkSettings {
  EXPECTED_HOURS_PER_DAY : Z;
  WFO_DAYS_PER_WEEK : Z;
  WFH_DAYS_PER_WEEK : Z;
  THRESHOLD_RED : Z;
  THRESHOLD_AMBER : Z
}.

(** The defaults of the class. *)
Definition default_settings : Settings := mkSettings 8 3 2 70 90.

(** [config.get_status_color], with the module's [settings] as argument. *)
Definition get_status_color (settings : Settings) (percentage : Q)
    : ComplianceStatus :=
  if decide (percentage < inject_Z (THRESHOLD_RED settings))%Q then RED
  else if decide (percentage <= inject_Z (THRESHOLD_AMBER settings))%Q then AMBER
  else GREEN.

(** [TimeCalculator._get_status_color] *)
Definition _get_status_color (percentage : Q) : ComplianceStatus :=
  if decide (percentage < 70)%Q then RED
  else if decide (percentage <= 90)%Q then AMBER
  else GREEN.

(** [ReportGenerator.get_individual_report]: the compliance of one day
    and its colour. *)
Definition daily_compliance (expected_daily_minutes minutes : Z) : Q :=
  if decide (0 < expected_daily_minutes) then percent_of minutes expected_daily_minutes
  else 0%Q.

Definition daily_status_color (daily_compliance : Q) : ComplianceStatus :=
  if decide (90 <= daily_compliance)%Q then GREEN
  else if decide (70 <= daily_compliance)%Q then AMBER
  else RED.

(** ** The policy in force *)

(** [routers.settings.get_dynamic_settings] *)
Record DynamicSettings := mkDynamic {
  ds_expected_hours_per_day : Z;
  ds_wfo_days_per_week : Z;
  ds_threshold_red : Z;
  ds_threshold_amber : Z;
  ds_min_hours_for_present : Z
}.

(** The attributes [TimeCalculator.__init__] stores. *)
Record TimeCalculator := mkCalculator {
  expected_hours_per_day : Z;
  wfo_days_per_week : Z
}.

(** The calculator [routers.upload] builds. *)
Definition upload_calculator (dynamic_settings : DynamicSettings) : TimeCalculator :=
  mkCalculator (ds_expected_hours_per_day dynamic_settings)
               (ds_wfo_days_per_week dynamic_settings).

(** The daily summaries [routers.upload] stores. *)
Definition upload_daily_summaries (dynamic_settings : DynamicSettings)
    (records : list PunchRecord) : gmap string (gmap Z DailySummary) :=
  let calculator := upload_calculator dynamic_settings in
  calculate_daily_summary records.

(** ** TimeCalculator: the summary of one week *)

Record WeeklySummary := mkWeekly {
  week_start : Z;
  week_end : Z;
  w_total_office_minutes : Z;
  wfo_days : Z;
  expected_minutes : Z;
  compliance_percentage : Q;
  w_status : ComplianceStatus
}.

(** One turn of the loop over [date_summaries.items()]; the state is
    [(total_minutes, wfo_days)]. *)
Definition week_step (week_start week_end : Z) (day_date : Z)
    (summary : DailySummary) (acc : Z * Z) : Z * Z :=
  if decide (week_start <= day_date <= week_end) then
    (acc.1 + total_office_minutes summary,
     if decide (status summary ∈ [PRESENT; PARTIAL]) then acc.2 + 1 else acc.2)
  else acc.

(** The body of the loop of [calculate_weekly_summary] for one employee.
    [compliance] is the double the program computes and rounds; the
    colour is decided on the exact quotient. *)
Definition weekly_of (self : TimeCalculator) (week_start week_end : Z)
    (date_summaries : gmap Z DailySummary) : WeeklySummary :=
  let '(total_minutes, wfo_days) :=
    map_fold (week_step week_start week_end) (0, 0) date_summaries in
  let expected_minutes := wfo_days * expected_hours_per_day self * 60 in
  let compliance :=
    if decide (0 < expected_minutes) then float_percent total_minutes expected_minutes
    else 0%Q in
  let status :=
    _get_status_color
      (if decide (0 < expected_minutes) then percent_of total_minutes expected_minutes
       else 0%Q) in
  {| week_start := week_start;
     week_end := week_end;
     w_total_office_minutes := total_minutes;
     wfo_days := wfo_days;
     expected_minutes := expected_minutes;
     compliance_percentage := py_round2 compliance;
     w_status := status |}.

Definition calculate_weekly_summary (self : TimeCalculator)
    (daily_summaries : gmap string (gmap Z DailySummary))
    (week_start week_end : Z) (employee_requirements : option (gmap string Z))
    : gmap string WeeklySummary :=
  weekly_of self week_start week_end <$> daily_summaries.

(** ** TimeCalculator: weeks *)

(** [date(y, m, d).toordinal()] *)
Definition is_leap (y : Z) : bool :=
  (y mod 4 =? 0) && (negb (y mod 100 =? 0) || (y mod 400 =? 0)).

Definition days_before_year (y : Z) : Z :=
  let p := y - 1 in p * 365 + p / 4 - p / 100 + p / 400.

Definition days_in_month (y m : Z) : Z :=
  if m =? 2 then (if is_leap y then 29 else 28)
  else if (m =? 4) || (m =? 6) || (m =? 9) || (m =? 11) then 30
  else 31.

Definition days_before_month (y m : Z) : Z :=
  foldr Z.add 0 (map (days_in_month y) (map Z.of_nat (seq 1 (Z.to_nat (m - 1))))).

Definition ymd (y m d : Z) : Z :=
  days_before_year y + days_before_month y m + d.

(** [d.weekday()]: Monday is 0. *)
Definition weekday (d : Z) : Z := (d + 6) mod 7.

Definition get_week_bounds (d : Z) : Z * Z :=
  let monday := d - weekday d in
  let sunday := monday + 6 in
  (monday, sunday).

(** The order of Python on pairs of dates. *)
Definition week_le (a b : Z * Z) : Prop :=
  a.1 < b.1 \/ (a.1 = b.1 /\ a.2 <= b.2).

#[global] Instance week_le_dec : RelDecision week_le.
Proof. intros a b. unfold week_le. apply _. Defined.

Definition get_all_weeks (dates : list Z) : list (Z * Z) :=
  let weeks := fold_left (fun weeks d => {[get_week_bounds d]} ∪ weeks) dates (∅ : gset (Z * Z)) in
  merge_sort week_le (elements weeks).

(** ** The pairing rule in the words of the specification

    Sort both lists; for each IN in ascending order, bind the earliest
    unused OUT that the rule [bindable] admits and take it out of the
    unused ones; an IN without such an OUT stays unmatched. The total is
    the sum of (out - in) in minutes over the matched pairs. *)

Section greedy.
Variable bindable : time -> time -> Prop.
Context `{!RelDecision bindable}.

Fixpoint spec_bind_earliest (in_time : time) (unused : list time)
    : option (time * list time) :=
  match unused with
  | [] => None
  | out_time :: rest =>
      if decide (bindable in_time out_time) then Some (out_time, rest)
      else match spec_bind_earliest in_time rest with
           | Some (o, rest') => Some (o, out_time :: rest')
           | None => None
           end
  end.

Fixpoint spec_greedy_pairs (ins unused : list time) : list (time * option time) :=
  match ins with
  | [] => []
  | in_time :: ins' =>
      match spec_bind_earliest in_time unused with
      | Some (o, unused') => (in_time, Some o) :: spec_greedy_pairs ins' unused'
      | None => (in_time, None) :: spec_greedy_pairs ins' unused
      end
  end.
End greedy.

Definition spec_pair_minutes (p : time * option time) : Z :=
  match p.2 with
  | Some o => time_minutes o - time_minutes p.1
  | None => 0
  end.

Definition spec_matched_minutes (pairs : list (time * option time)) : Z :=
  foldr Z.add 0 (map spec_pair_minutes pairs).

(** The rule as the specification words it: an OUT strictly greater than
    the IN. *)
Definition spec_greedy_total (ins outs : list time) : Z :=
  spec_matched_minutes (spec_greedy_pairs time_lt (sorted ins) (sorted outs)).

(** The rule of the code: an OUT strictly greater than the IN that also
    lies in a later clock minute. *)
Definition later_minute (in_time out_time : time) : Prop :=
  time_lt in_time out_time /\ 0 < time_minutes out_time - time_minutes in_time.

#[global] Instance later_minute_dec : RelDecision later_minute.
Proof. intros a b. unfold later_minute. apply _. Defined.

Definition minute_greedy_total (ins outs : list time) : Z :=
  spec_matched_minutes (spec_greedy_pairs later_minute (sorted ins) (sorted outs)).

(** The OUT times of [outs], numbered from [i], whose index is not used. *)
Fixpoint unused_outs (used_outs : gset nat) (i : nat) (outs : list time) : list time :=
  match outs with
  | [] => []
  | o :: rest =>
      if decide (i ∈ used_outs) then unused_outs used_outs (S i) rest
      else o :: unused_outs used_outs (S i) rest
  end.

(** What the loop of [_calculate_day_summary] keeps of a remark: the
    remark when it is truthy. *)
Definition truthy_remark (record : PunchRecord) : option string :=
  if truthy_str (r_remark record) then r_remark record else None.

(** ** The weekly figures in the words of the specification *)

(** The summaries whose date falls within the window, ends included. *)
Definition spec_restricted (week_start week_end : Z)
    (date_summaries : gmap Z DailySummary) : gmap Z DailySummary :=
  filter (fun p : Z * DailySummary => week_start <= p.1 <= week_end) date_summaries.

(** The sum of the total office minutes over a set of summaries. *)
Definition spec_sum_minutes (m : gmap Z DailySummary) : Z :=
  foldr Z.add 0 ((fun p : Z * DailySummary => total_office_minutes p.2) <$> map_to_list m).

(** The number of summaries whose status is PRESENT or PARTIAL. *)
Definition spec_office_days (m : gmap Z DailySummary) : Z :=
  Z.of_nat (size (filter (fun p : Z * DailySummary =>
                            status p.2 = PRESENT \/ status p.2 = PARTIAL) m)).

(** A week of two days in the office, and a week of one long day. *)
Definition c4_daily : gmap string (gmap Z DailySummary) :=
  {[ "E1" := {[ 739021 := mkDaily 400 PRESENT None None None None;
                 739022 := mkDaily 361 PRESENT None None None None;
                 739030 := mkDaily 500 PRESENT None None None None ]} ]}.

Definition c4_overtime : gmap string (gmap Z DailySummary) :=
  {[ "E1" := {[ 739021 := mkDaily 600 PRESENT None None None None ]} ]}.


(** Days of records used as instances below. *)
Definition c1_day : list PunchRecord :=
  [mkPunch "E1" 739021 (Some (hm 9 30)) (Some (hm 13 0)) None None;
   mkPunch "E1" 739021 (Some (hm 9 0)) (Some (hm 12 0)) None None].

Definition c5_day : list PunchRecord :=
  [mkPunch "E1" 739021 (Some (hm 9 0)) (Some (hm 12 0)) None None;
   mkPunch "E1" 739021 (Some (hm 9 30)) (Some (hm 13 0)) (Some (hm 8 15)) None;
   mkPunch "E1" 739021 None None (Some (hm 2 0)) None].

(** A policy with thresholds 60 and 80 and 10 expected hours, and a day
    from 09:00 to 15:30. *)
Definition c3_policy : DynamicSettings := mkDynamic 10 3 60 80 6.

Definition c3_day : list PunchRecord :=
  [mkPunch "E1" 739021 (Some (hm 9 0)) (Some (hm 15 30)) None None].

(** A record without its device total. *)
Definition without_total (record : PunchRecord) : PunchRecord :=
  mkPunch (r_code record) (r_date record) (r_in_time record) (r_out_time record)
          None (r_remark record).

Definition c6_day : list PunchRecord :=
  [mkPunch "E1" 739021 (Some (hm 9 30)) (Some (hm 13 0)) None (Some "");
   mkPunch "E1" 739021 (Some (hm 9 0)) None (Some (hm 6 30)) (Some "P");
   mkPunch "E1" 739021 None (Some (hm 12 0)) None None].

(** ** Further definitions *)

(** The dictionary [_create_pairs] builds for an IN time and the OUT time
    bound to it, if any. *)
Definition render_pair (p : time * option time) : Pair :=
  match p.2 with
  | Some o =>
      mkPair (Some (strftime_HM p.1)) (Some (strftime_HM o))
        (Some (format_minutes (_time_to_minutes (Some o) - _time_to_minutes (Some p.1))))
  | None => mkPair (Some (strftime_HM p.1)) None None
  end.

(** The records of one employee and date, in input order. *)
Definition records_of (code : string) (date : Z) (records : list PunchRecord)
    : list PunchRecord :=
  filter (fun r => r_code r = code /\ r_date r = date) records.

(** The device totals of the records are times [datetime.time] accepts. *)
Definition valid_totals (records : list PunchRecord) : Prop :=
  Forall valid_time (omap r_total_time records).

(** [ReportGenerator.get_wfo_compliance_report]: the flag of a stored
    weekly summary, [summary.compliance_percentage >= 70]. *)
Definition is_compliant (summary : WeeklySummary) : bool :=
  bool_decide (70 <= compliance_percentage summary)%Q.

(** The window [w] holds the date [d]. *)
Definition in_week (d : Z) (w : Z * Z) : Prop := w.1 <= d <= w.2.

#[global] Instance in_week_dec (d : Z) (w : Z * Z) : Decision (in_week d w).
Proof. unfold in_week. apply _. Defined.

(** The figure [field] of the weekly summary of [emp] for the window [w],
    0 when there is none. *)
Definition weekly_figure (field : WeeklySummary -> Z) (self : TimeCalculator)
    (daily_summaries : gmap string (gmap Z DailySummary)) (emp : string)
    (w : Z * Z) : Z :=
  from_option field 0
    (calculate_weekly_summary self daily_summaries w.1 w.2 None !! emp).

(** RED < AMBER < GREEN *)
Definition status_rank (s : ComplianceStatus) : Z :=
  match s with RED => 0 | AMBER => 1 | GREEN => 2 end.

(** [ReportGenerator.get_wfo_compliance_report], from the weekly summaries
    the query returns: the loop that counts the compliant ones, and the
    figures of the ['summary'] entry: total_employees, compliant,
    non_compliant and compliance_rate. *)
Definition compliant_count (summaries : list WeeklySummary) : Z :=
  fold_left (fun compliant_count summary =>
               if is_compliant summary then compliant_count + 1 else compliant_count)
            summaries 0.

Record ComplianceCounts := mkCounts {
  total_employees : Z;
  compliant : Z;
  non_compliant : Z;
  compliance_rate : Q
}.

Definition wfo_report_summary (summaries : list WeeklySummary) : ComplianceCounts :=
  let compliant_count := compliant_count summaries in
  let total_employees := Z.of_nat (length summaries) in
  let compliance_rate :=
    if decide (0 < total_employees) then float_percent compliant_count total_employees
    else 0%Q in
  {| total_employees := total_employees;
     compliant := compliant_count;
     non_compliant := total_employees - compliant_count;
     compliance_rate := py_round2 compliance_rate |}.

(** [ReportGenerator.get_dashboard_daily_stats], from the counts the query
    returns ([counts_map], PRESENT rows per date) and the number of
    employees: one entry (date, wfo, wfh) per turn of the loop
    [while current <= week_end]. The loop is run on [fuel] turns at most. *)
Fixpoint daily_stats_loop (fuel : nat) (counts_map : gmap Z Z) (total_employees : Z)
    (week_end current : Z) (stats : list (Z * Z * Z)) : list (Z * Z * Z) :=
  match fuel with
  | O => stats
  | S fuel =>
      if decide (current <= week_end) then
        let wfo_count := default 0 (counts_map !! current) in
        let wfh_count := Z.max 0 (total_employees - wfo_count) in
        daily_stats_loop fuel counts_map total_employees week_end (current + 1)
          (stats ++ [(current, wfo_count, wfh_count)])
      else stats
  end.

Definition daily_stats (counts_map : gmap Z Z) (total_employees : Z)
    (week_start : Z) : list (Z * Z * Z) :=
  let week_end := week_start + 6 in
  daily_stats_loop 8 counts_map total_employees week_end week_start [].

(** The entry of the chart for the date [d]. *)
Definition stats_entry (counts_map : gmap Z Z) (total_employees : Z) (d : Z)
    : Z * Z * Z :=
  (d, default 0 (counts_map !! d),
   Z.max 0 (total_employees - default 0 (counts_map !! d))).

(** [AttendanceParser.get_unique_employees], on the keys ['code'] and
    ['name'] of the records, the only ones it reads. The dict [employees]
    is the list of its items in insertion order; an update of a key keeps
    its place. *)
Fixpoint upsert_employee (employees : list (string * string)) (code name : string)
    : list (string * string) :=
  match employees with
  | [] => [(code, name)]
  | (c, n) :: rest =>
      if decide (c = code) then
        (if decide (n = "" /\ name <> "") then (c, name) else (c, n)) :: rest
      else (c, n) :: upsert_employee rest code name
  end.

Definition get_unique_employees (records : list (string * string))
    : list (string * string) :=
  fold_left (fun employees record => upsert_employee employees record.1 record.2)
            records [].

(** The value of a key in a list of items. *)
Fixpoint assoc (code : string) (employees : list (string * string)) : option string :=
  match employees with
  | [] => None
  | (c, n) :: rest => if decide (c = code) then Some n else assoc code rest
  end.

(** The first non-empty name among the records of a code, else the empty
    name. *)
Definition first_name (code : string) (records : list (string * string)) : string :=
  default ""
    (snd <$> head (filter (fun r : string * string => r.1 = code /\ r.2 <> "") records)).

(** * Properties *)

(** ** The order on times *)

Lemma time_lt_irrefl (a : time) : ~ time_lt a a.
Proof. unfold time_lt. lia. Qed.

Lemma time_lt_trans (a b c : time) : time_lt a b -> time_lt b c -> time_lt a c.
Proof. unfold time_lt. lia. Qed.

Lemma time_lt_asym (a b : time) : time_lt a b -> ~ time_lt b a.
Proof. unfold time_lt. lia. Qed.

Lemma time_trichotomy (a b : time) : time_lt a b \/ a = b \/ time_lt b a.
Proof.
  destruct a as [h1 m1 s1 u1], b as [h2 m2 s2 u2]. unfold time_lt. simpl.
  destruct (Z.lt_trichotomy h1 h2) as [?|[->|?]]; [lia| |lia].
  destruct (Z.lt_trichotomy m1 m2) as [?|[->|?]]; [lia| |lia].
  destruct (Z.lt_trichotomy s1 s2) as [?|[->|?]]; [lia| |lia].
  destruct (Z.lt_trichotomy u1 u2) as [?|[->|?]]; [lia| |lia].
  right. left. reflexivity.
Qed.

Lemma time_le_not_lt (a b : time) : time_le a b <-> ~ time_lt b a.
Proof.
  split.
  - intros [->|H]; [apply time_lt_irrefl|by apply time_lt_asym].
  - intros H. destruct (time_trichotomy a b) as [?|[?|?]];
      [by right|by left|done].
Qed.

#[global] Instance time_le_refl : Reflexive time_le.
Proof. intros a. by left. Qed.

#[global] Instance time_le_trans : Transitive time_le.
Proof.
  intros a b c [->|H1] [->|H2]; [by left|by right|by right|].
  right. by eapply time_lt_trans.
Qed.

#[global] Instance time_le_antisym : AntiSymm (=) time_le.
Proof.
  intros a b [->|H1] [H|H2]; try done.
  by destruct (time_lt_asym a b).
Qed.

#[global] Instance time_le_total : Total time_le.
Proof.
  intros a b. destruct (time_trichotomy a b) as [?|[->|?]].
  - left. by right.
  - left. by left.
  - right. by right.
Qed.

(** The clock minute orders times that lie in different minutes. *)
Lemma time_minutes_lt (a b : time) :
  valid_time a -> valid_time b ->
  time_minutes a < time_minutes b -> time_lt a b.
Proof. unfold valid_time, time_minutes, time_lt. lia. Qed.

Lemma time_lt_whole_minute (a b : time) :
  valid_time a -> valid_time b -> whole_minute a -> whole_minute b ->
  time_lt a b -> time_minutes a < time_minutes b.
Proof. unfold valid_time, whole_minute, time_minutes, time_lt. lia. Qed.

(** ** Sorting *)

Lemma sorted_Sorted (l : list time) : Sorted time_le (sorted l).
Proof. apply (Sorted_merge_sort time_le). Qed.

Lemma sorted_Permutation (l : list time) : sorted l ≡ₚ l.
Proof. apply (merge_sort_Permutation time_le). Qed.

Lemma sorted_perm_eq (l1 l2 : list time) : l1 ≡ₚ l2 -> sorted l1 = sorted l2.
Proof.
  intros H. apply (Sorted_unique time_le); try apply sorted_Sorted.
  by rewrite !sorted_Permutation.
Qed.

Lemma sorted_nil_inv (l : list time) : sorted l = [] -> l = [].
Proof.
  intros H. apply Permutation_nil_r. rewrite <- H. symmetry. apply sorted_Permutation.
Qed.

(** ** Minimum and maximum *)

Lemma fold_min_spec (l : list time) (x : time) :
  let m := fold_left (fun m y => if decide (time_lt y m) then y else m) l x in
  m ∈ x :: l /\ forall y, y ∈ x :: l -> time_le m y.
Proof.
  revert x. induction l as [|a l IH]; intros x; simpl.
  - split; [set_solver|]. intros y Hy. apply list_elem_of_singleton in Hy as ->.
    reflexivity.
  - destruct (IH (if decide (time_lt a x) then a else x)) as [Hin Hle].
    split.
    + apply elem_of_cons in Hin as [->|Hin].
      * case_decide; [apply list_elem_of_further|]; apply list_elem_of_here.
      * by do 2 apply list_elem_of_further.
    + intros y Hy.
      assert (Hm : time_le (if decide (time_lt a x) then a else x) x /\
                   time_le (if decide (time_lt a x) then a else x) a).
      { case_decide as Hax.
        - split; [by right|reflexivity].
        - split; [reflexivity|by apply time_le_not_lt]. }
      destruct Hm as [Hmx Hma].
      assert (H0 := Hle _ (list_elem_of_here _ _)).
      apply elem_of_cons in Hy as [->|Hy]; [by etrans|].
      apply elem_of_cons in Hy as [->|Hy]; [by etrans|].
      apply Hle. by right.
Qed.

Lemma fold_max_spec (l : list time) (x : time) :
  let m := fold_left (fun m y => if decide (time_lt m y) then y else m) l x in
  m ∈ x :: l /\ forall y, y ∈ x :: l -> time_le y m.
Proof.
  revert x. induction l as [|a l IH]; intros x; simpl.
  - split; [set_solver|]. intros y Hy. apply list_elem_of_singleton in Hy as ->.
    reflexivity.
  - destruct (IH (if decide (time_lt x a) then a else x)) as [Hin Hle].
    split.
    + apply elem_of_cons in Hin as [->|Hin].
      * case_decide; [apply list_elem_of_further|]; apply list_elem_of_here.
      * by do 2 apply list_elem_of_further.
    + intros y Hy.
      assert (Hm : time_le x (if decide (time_lt x a) then a else x) /\
                   time_le a (if decide (time_lt x a) then a else x)).
      { case_decide as Hax.
        - split; [by right|reflexivity].
        - split; [reflexivity|by apply time_le_not_lt]. }
      destruct Hm as [Hmx Hma].
      assert (H0 := Hle _ (list_elem_of_here _ _)).
      apply elem_of_cons in Hy as [->|Hy]; [by etrans|].
      apply elem_of_cons in Hy as [->|Hy]; [by etrans|].
      apply Hle. by right.
Qed.

Lemma py_min_perm (l1 l2 : list time) : l1 ≡ₚ l2 -> py_min l1 = py_min l2.
Proof.
  intros HP. destruct l1 as [|x1 l1], l2 as [|x2 l2]; simpl.
  - reflexivity.
  - by apply Permutation_nil_cons in HP.
  - symmetry in HP. by apply Permutation_nil_cons in HP.
  - f_equal. destruct (fold_min_spec l1 x1) as [Hin1 Hle1].
    destruct (fold_min_spec l2 x2) as [Hin2 Hle2].
    apply (anti_symm time_le).
    + apply Hle1. by rewrite HP.
    + apply Hle2. by rewrite <- HP.
Qed.

Lemma py_max_perm (l1 l2 : list time) : l1 ≡ₚ l2 -> py_max l1 = py_max l2.
Proof.
  intros HP. destruct l1 as [|x1 l1], l2 as [|x2 l2]; simpl.
  - reflexivity.
  - by apply Permutation_nil_cons in HP.
  - symmetry in HP. by apply Permutation_nil_cons in HP.
  - f_equal. destruct (fold_max_spec l1 x1) as [Hin1 Hle1].
    destruct (fold_max_spec l2 x2) as [Hin2 Hle2].
    apply (anti_symm time_le).
    + apply Hle2. by rewrite <- HP.
    + apply Hle1. by rewrite HP.
Qed.


(** ** Pairing: the index set of the code against list removal *)

Lemma unused_outs_empty (i : nat) (outs : list time) : unused_outs ∅ i outs = outs.
Proof.
  revert i. induction outs as [|o outs IH]; intros i; simpl; [done|].
  rewrite decide_False by set_solver. by rewrite IH.
Qed.

Lemma unused_outs_below (used : gset nat) (j i : nat) (outs : list time) :
  (j < i)%nat -> unused_outs ({[j]} ∪ used) i outs = unused_outs used i outs.
Proof.
  revert i. induction outs as [|o outs IH]; intros i Hj; simpl; [done|].
  rewrite (IH (S i)) by lia.
  destruct (decide (i ∈ used)) as [Hi|Hi].
  - rewrite decide_True by set_solver. done.
  - rewrite decide_False; [done|].
    intros [Heq%elem_of_singleton|?]%elem_of_union; [lia|done].
Qed.

Lemma scan_outs_bind (in_time : time) (used : gset nat) (i : nat) (outs : list time) :
  match spec_bind_earliest later_minute in_time (unused_outs used i outs) with
  | None => scan_outs in_time used i outs = None
  | Some (o, rest) =>
      exists j, (i <= j)%nat /\
        scan_outs in_time used i outs = Some (j, time_minutes o - time_minutes in_time) /\
        unused_outs ({[j]} ∪ used) i outs = rest
  end.
Proof.
  revert i. induction outs as [|o outs IH]; intros i; simpl; [done|].
  specialize (IH (S i)).
  destruct (decide (i ∈ used)) as [Hi|Hi].
  - destruct (spec_bind_earliest later_minute in_time (unused_outs used (S i) outs))
      as [[m r]|]; [|done].
    destruct IH as (j & Hj & Hs & Hu). exists j. split; [lia|]. split; [done|].
    rewrite decide_True by set_solver. done.
  - simpl. destruct (decide (later_minute in_time o)) as [[Hlt Hd]|Hn].
    + exists i. split; [lia|]. rewrite decide_True by done.
      unfold time_minutes in *. rewrite decide_True by done. split; [done|].
      rewrite decide_True by set_solver. apply unused_outs_below. lia.
    + assert (Hscan : (if decide (time_lt in_time o) then
                if decide (0 < hour o * 60 + minute o - (hour in_time * 60 + minute in_time))
                then Some (i, hour o * 60 + minute o - (hour in_time * 60 + minute in_time))
                else scan_outs in_time used (S i) outs
              else scan_outs in_time used (S i) outs) = scan_outs in_time used (S i) outs).
      { repeat case_decide; try done. destruct Hn. by split. }
      rewrite Hscan.
      destruct (spec_bind_earliest later_minute in_time (unused_outs used (S i) outs))
        as [[m r]|]; [|done].
      destruct IH as (j & Hj & Hs & Hu). exists j. split; [lia|]. split; [done|].
      rewrite decide_False; [by rewrite Hu|].
      intros [Heq%elem_of_singleton|?]%elem_of_union; [lia|done].
Qed.

Lemma pair_loop_greedy (souts ins : list time) (total : Z) (used : gset nat) :
  (fold_left (pair_step souts) ins (total, used)).1 =
  total + spec_matched_minutes
            (spec_greedy_pairs later_minute ins (unused_outs used 0 souts)).
Proof.
  revert total used. induction ins as [|a ins IH]; intros total used; simpl.
  - unfold spec_matched_minutes. simpl. lia.
  - unfold pair_step at 2. simpl.
    pose proof (scan_outs_bind a used 0 souts) as Hb.
    destruct (spec_bind_earliest later_minute a (unused_outs used 0 souts))
      as [[o rest]|].
    + destruct Hb as (j & _ & -> & Hu). rewrite IH, Hu.
      unfold spec_matched_minutes. simpl. unfold spec_pair_minutes at 2. simpl. lia.
    + rewrite Hb. rewrite IH. unfold spec_matched_minutes. simpl.
      unfold spec_pair_minutes at 2. simpl. lia.
Qed.

Lemma greedy_no_outs (R : time -> time -> Prop) `{!RelDecision R} (ins : list time) :
  spec_matched_minutes (spec_greedy_pairs R ins []) = 0.
Proof.
  induction ins as [|a ins IH]; [done|]. simpl.
  unfold spec_matched_minutes in *. simpl. rewrite IH. done.
Qed.

Lemma calculate_from_pairs_greedy (ins outs : list time) :
  _calculate_from_pairs ins outs = minute_greedy_total ins outs.
Proof.
  unfold _calculate_from_pairs, minute_greedy_total.
  destruct ins as [|a ins].
  { done. }
  destruct outs as [|b outs].
  { change (sorted []) with (@nil time). by rewrite greedy_no_outs. }
  rewrite pair_loop_greedy, unused_outs_empty. lia.
Qed.

(** Where two rules agree on the times at hand, they bind alike. *)
Lemma bind_earliest_ext (R1 R2 : time -> time -> Prop)
    `{!RelDecision R1, !RelDecision R2} (a : time) (outs : list time) :
  (forall o, o ∈ outs -> R1 a o <-> R2 a o) ->
  spec_bind_earliest R1 a outs = spec_bind_earliest R2 a outs.
Proof.
  induction outs as [|o outs IH]; intros H; simpl; [done|].
  rewrite IH by (intros; apply H; by right).
  destruct (decide (R1 a o)) as [H1|H1], (decide (R2 a o)) as [H2|H2]; try done.
  - destruct H2. apply H; [left|done].
  - destruct H1. apply H; [left|done].
Qed.

Lemma bind_earliest_subset (R : time -> time -> Prop) `{!RelDecision R}
    (a o : time) (outs rest : list time) :
  spec_bind_earliest R a outs = Some (o, rest) -> forall x, x ∈ rest -> x ∈ outs.
Proof.
  revert rest. induction outs as [|b outs IH]; intros rest; simpl; [done|].
  case_decide.
  - intros [= <- <-] x Hx. by right.
  - destruct (spec_bind_earliest R a outs) as [[m r]|]; [|done].
    intros [= <- <-] x [->|Hx]%elem_of_cons; [left|right]. by eapply IH.
Qed.

Lemma greedy_pairs_ext (R1 R2 : time -> time -> Prop)
    `{!RelDecision R1, !RelDecision R2} (ins outs : list time) :
  (forall a o, a ∈ ins -> o ∈ outs -> R1 a o <-> R2 a o) ->
  spec_greedy_pairs R1 ins outs = spec_greedy_pairs R2 ins outs.
Proof.
  revert outs. induction ins as [|a ins IH]; intros outs H; simpl; [done|].
  rewrite (bind_earliest_ext R1 R2 a outs) by (intros; apply H; [left|done]).
  destruct (spec_bind_earliest R2 a outs) as [[o rest]|] eqn:Hb.
  - f_equal. apply IH. intros x y Hx Hy. apply H; [by right|].
    by eapply bind_earliest_subset.
  - f_equal. apply IH. intros x y Hx Hy. apply H; [by right|done].
Qed.

(** ** The loop over the records of a day *)

Lemma day_loop_from (records : list PunchRecord) (st : DayState) :
  fold_left day_step records st =
  {| in_times := in_times st ++ omap r_in_time records;
     out_times := out_times st ++ omap r_out_time records;
     total_from_device :=
       match total_from_device st with
       | Some t => Some t
       | None => head (omap r_total_time records)
       end;
     last_remark :=
       match last (omap truthy_remark records) with
       | Some s => Some s
       | None => last_remark st
       end |}.
Proof.
  revert st. induction records as [|r records IH]; intros st; simpl.
  - destruct st as [a b [t|] d]; simpl; by rewrite !app_nil_r.
  - rewrite IH. unfold day_step at 1 2 3 4. simpl. f_equal.
    + destruct (r_in_time r); simpl; [by rewrite <- app_assoc|done].
    + destruct (r_out_time r); simpl; [by rewrite <- app_assoc|done].
    + destruct (r_total_time r), (total_from_device st); done.
    + unfold truthy_remark at 2. destruct (truthy_str (r_remark r)) eqn:Ht.
      * destruct (r_remark r) as [x|] eqn:Hr; [|done]. simpl.
        change (list_omap _ _ truthy_remark records) with (omap truthy_remark records).
        rewrite last_cons. destruct (last (omap truthy_remark records)); done.
      * done.
Qed.

Lemma day_loop_spec (records : list PunchRecord) :
  day_loop records =
  {| in_times := omap r_in_time records;
     out_times := omap r_out_time records;
     total_from_device := head (omap r_total_time records);
     last_remark := last (omap truthy_remark records) |}.
Proof.
  unfold day_loop. rewrite day_loop_from. simpl. f_equal.
  by destruct (last (omap truthy_remark records)).
Qed.

(** ** Pairing: what one binding adds *)

Lemma scan_outs_Some (in_time : time) (used : gset nat) (i : nat)
    (outs : list time) (j : nat) (d : Z) :
  scan_outs in_time used i outs = Some (j, d) ->
  0 < d /\ (j ∉ used) /\ (i <= j)%nat /\
  exists o, outs !! (j - i)%nat = Some o /\ time_lt in_time o /\
            d = time_minutes o - time_minutes in_time.
Proof.
  revert i. induction outs as [|o outs IH]; intros i; simpl; [done|].
  assert (Hrec : scan_outs in_time used (S i) outs = Some (j, d) ->
    0 < d /\ (j ∉ used) /\ (i <= j)%nat /\
    exists o', (o :: outs) !! (j - i)%nat = Some o' /\ time_lt in_time o' /\
               d = time_minutes o' - time_minutes in_time).
  { intros H. destruct (IH _ H) as (Hd & Hj & Hle & o' & Hl & Hlt & ->).
    repeat split; [done|done|lia|]. exists o'. repeat split; [|done].
    replace (j - i)%nat with (S (j - S i)) by lia. done. }
  repeat case_decide; try done.
  intros [= <- <-]. repeat split; [done|done|lia|].
  exists o. rewrite Nat.sub_diag. done.
Qed.

Lemma pair_step_mono (souts : list time) (st : Z * gset nat) (a : time) :
  st.1 <= (pair_step souts st a).1.
Proof.
  unfold pair_step. destruct (scan_outs a st.2 0 souts) as [[j d]|] eqn:H; [|lia].
  apply scan_outs_Some in H as [Hd _]. simpl. lia.
Qed.

Lemma pair_loop_mono (souts ins : list time) (st : Z * gset nat) :
  st.1 <= (fold_left (pair_step souts) ins st).1.
Proof.
  revert st. induction ins as [|a ins IH]; intros st; simpl; [lia|].
  etrans; [apply (pair_step_mono souts st a)|apply IH].
Qed.

Lemma scan_outs_no_later (in_time : time) (used : gset nat) (i : nat) (outs : list time) :
  (forall o, o ∈ outs -> time_minutes o - time_minutes in_time <= 0) ->
  scan_outs in_time used i outs = None.
Proof.
  intros H. destruct (scan_outs in_time used i outs) as [[j d]|] eqn:Hs; [|done].
  apply scan_outs_Some in Hs as (Hd & _ & _ & o & Hl & _ & ->).
  apply list_elem_of_lookup_2 in Hl. specialize (H _ Hl). lia.
Qed.

Lemma pair_loop_no_later (souts ins : list time) (st : Z * gset nat) :
  (forall a o, a ∈ ins -> o ∈ souts -> time_minutes o - time_minutes a <= 0) ->
  fold_left (pair_step souts) ins st = st.
Proof.
  revert st. induction ins as [|a ins IH]; intros st H; simpl; [done|].
  unfold pair_step at 2. rewrite scan_outs_no_later.
  - apply IH. intros x o Hx Ho. apply H; [by right|done].
  - intros o Ho. apply H; [left|done].
Qed.

(** ** Pairing: the claims *)

Lemma greedy_whole_minutes (ins outs : list time) :
  Forall valid_time ins -> Forall whole_minute ins ->
  Forall valid_time outs -> Forall whole_minute outs ->
  minute_greedy_total ins outs = spec_greedy_total ins outs.
Proof.
  intros Hvi Hwi Hvo Hwo. unfold minute_greedy_total, spec_greedy_total.
  f_equal. apply greedy_pairs_ext. intros a o Ha Ho.
  rewrite sorted_Permutation in Ha. rewrite sorted_Permutation in Ho.
  rewrite Forall_forall in Hvi, Hwi, Hvo, Hwo.
  unfold later_minute. split; [tauto|]. intros Hlt. split; [done|].
  pose proof (time_lt_whole_minute a o (Hvi _ Ha) (Hvo _ Ho) (Hwi _ Ha) (Hwo _ Ho) Hlt).
  lia.
Qed.

(** C1, as the code has it. The total of [_calculate_from_pairs] is the
    greedy pairing over the sorted lists in which each IN, in ascending
    order, is bound to the earliest unused OUT that is strictly greater
    than it and lies in a later clock minute (hour * 60 + minute strictly
    larger); the bound OUT is marked used, an IN without such an OUT adds
    0, and the total is the sum of (out - in) in minutes over the bound
    pairs. For times without seconds this is the pairing on strictly
    greater OUT times of the specification. A day without device total
    has this total, and IN [09:00, 09:30] with OUT [12:00, 13:00] gives
    the pairs (09:00, 12:00), (09:30, 13:00) and 390 minutes. *)
Theorem C1_pairing_total :
  (forall ins outs, _calculate_from_pairs ins outs = minute_greedy_total ins outs) /\
  (forall ins outs,
     Forall valid_time ins -> Forall whole_minute ins ->
     Forall valid_time outs -> Forall whole_minute outs ->
     _calculate_from_pairs ins outs = spec_greedy_total ins outs) /\
  (forall records,
     head (omap r_total_time records) = None ->
     total_office_minutes (_calculate_day_summary records) =
     minute_greedy_total (omap r_in_time records) (omap r_out_time records)) /\
  spec_greedy_pairs time_lt (sorted [hm 9 0; hm 9 30]) (sorted [hm 12 0; hm 13 0]) =
    [(hm 9 0, Some (hm 12 0)); (hm 9 30, Some (hm 13 0))] /\
  _calculate_from_pairs [hm 9 0; hm 9 30] [hm 12 0; hm 13 0] = 390.
Proof.
  split; [exact calculate_from_pairs_greedy|].
  split.
  { intros ins outs ????. rewrite calculate_from_pairs_greedy.
    by apply greedy_whole_minutes. }
  split.
  { intros records H. unfold _calculate_day_summary.
    rewrite day_loop_spec. simpl. rewrite H. apply calculate_from_pairs_greedy. }
  split; vm_compute; reflexivity.
Qed.

Lemma C1_pairing_total_witness :
  _calculate_from_pairs [hm 9 0; hm 9 30] [hm 12 0; hm 13 0] =
  spec_greedy_total [hm 9 0; hm 9 30] [hm 12 0; hm 13 0] /\
  total_office_minutes (_calculate_day_summary c1_day) =
  minute_greedy_total (omap r_in_time c1_day) (omap r_out_time c1_day).
Proof.
  split.
  - apply (proj1 (proj2 C1_pairing_total));
      repeat constructor; simpl; lia.
  - apply (proj1 (proj2 (proj2 C1_pairing_total))). reflexivity.
Defined.

(** C1 as stated fails: with IN 09:00:10 and OUT 09:00:50, 10:00:00 the
    earliest OUT strictly greater than the IN is 09:00:50, zero minutes
    later, so the stated pairing totals 0; the code passes over it and
    binds 10:00:00, and the day totals 60. *)
Lemma C1_counterexample :
  total_office_minutes
    (_calculate_day_summary
       [mkPunch "E1" 739021 (Some (hms 9 0 10)) (Some (hms 9 0 50)) None None;
        mkPunch "E1" 739021 None (Some (hm 10 0)) None None]) = 60 /\
  spec_greedy_total [hms 9 0 10] [hms 9 0 50; hm 10 0] = 0 /\
  _calculate_from_pairs [hms 9 0 10] [hms 9 0 50; hm 10 0] <>
  spec_greedy_total [hms 9 0 10] [hms 9 0 50; hm 10 0].
Proof. vm_compute. repeat split; discriminate. Qed.

(** C9. In [_calculate_from_pairs] a candidate OUT is bound only when the
    computed duration is positive: whatever the scan of one IN adds to
    the total is a positive difference of clock minutes of an unused OUT,
    a candidate of non-positive duration is passed over, and so the
    total is never negative, whatever the times (out of order or
    malformed ones included); when no candidate has a positive duration
    the total is 0. *)
Theorem C9_nonpositive_pairs_discarded :
  (forall in_time used i outs j d,
     scan_outs in_time used i outs = Some (j, d) ->
     0 < d /\ (j ∉ used) /\
     exists o, outs !! (j - i)%nat = Some o /\
               d = _time_to_minutes (Some o) - _time_to_minutes (Some in_time)) /\
  (forall ins outs, 0 <= _calculate_from_pairs ins outs) /\
  (forall ins outs,
     (forall a o, a ∈ ins -> o ∈ outs ->
        _time_to_minutes (Some o) - _time_to_minutes (Some a) <= 0) ->
     _calculate_from_pairs ins outs = 0).
Proof.
  split; [|split].
  - intros in_time used i outs j d H.
    apply scan_outs_Some in H as (Hd & Hj & _ & o & Hl & _ & ->).
    split; [done|]. split; [done|]. by exists o.
  - intros ins outs. unfold _calculate_from_pairs.
    destruct ins; [lia|]. destruct outs; [lia|].
    apply (pair_loop_mono _ _ (0, ∅)).
  - intros ins outs H. unfold _calculate_from_pairs.
    destruct ins as [|a ins]; [done|]. destruct outs as [|b outs]; [done|].
    rewrite pair_loop_no_later; [done|].
    intros x o Hx Ho. rewrite sorted_Permutation in Hx.
    rewrite sorted_Permutation in Ho. apply (H x o Hx Ho).
Qed.

Lemma C9_nonpositive_pairs_discarded_witness :
  (0 < 60 /\ (1%nat ∉ (∅ : gset nat)) /\
   exists o, [hms 9 0 50; hm 10 0] !! (1 - 0)%nat = Some o /\
             60 = _time_to_minutes (Some o) - _time_to_minutes (Some (hms 9 0 10))) /\
  _calculate_from_pairs [hm 17 0; hm 18 0] [hm 9 0; hm 17 0] = 0.
Proof.
  split.
  - apply (proj1 C9_nonpositive_pairs_discarded (hms 9 0 10) ∅ 0%nat
             [hms 9 0 50; hm 10 0] 1%nat 60).
    vm_compute. reflexivity.
  - apply (proj2 (proj2 C9_nonpositive_pairs_discarded)).
    intros a o Ha Ho.
    repeat (apply elem_of_cons in Ha as [->|Ha]);
      repeat (apply elem_of_cons in Ho as [->|Ho]);
      try (by apply elem_of_nil in Ha); try (by apply elem_of_nil in Ho);
      simpl; lia.
Defined.

(** ** Pairing: the pairs for display *)

Lemma scan_display_bind (in_time : time) (used : gset nat) (i : nat) (outs : list time) :
  match spec_bind_earliest time_lt in_time (unused_outs used i outs) with
  | None => scan_outs_display in_time used i outs = None
  | Some (o, rest) =>
      exists j, (i <= j)%nat /\
        scan_outs_display in_time used i outs = Some (j, o) /\
        unused_outs ({[j]} ∪ used) i outs = rest
  end.
Proof.
  revert i. induction outs as [|o outs IH]; intros i; simpl; [done|].
  specialize (IH (S i)).
  destruct (decide (i ∈ used)) as [Hi|Hi].
  - destruct (spec_bind_earliest time_lt in_time (unused_outs used (S i) outs))
      as [[m r]|]; [|done].
    destruct IH as (j & Hj & Hs & Hu). exists j. split; [lia|]. split; [done|].
    rewrite decide_True; [done|]. apply elem_of_union. by right.
  - simpl. destruct (decide (time_lt in_time o)) as [Hlt|Hn].
    + exists i. split; [lia|]. split; [done|].
      rewrite decide_True by (apply elem_of_union; left; by apply elem_of_singleton).
      apply unused_outs_below. lia.
    + destruct (spec_bind_earliest time_lt in_time (unused_outs used (S i) outs))
        as [[m r]|]; [|done].
      destruct IH as (j & Hj & Hs & Hu). exists j. split; [lia|]. split; [done|].
      rewrite decide_False; [by rewrite Hu|].
      intros [Heq%elem_of_singleton|?]%elem_of_union; [lia|done].
Qed.

Lemma display_loop_greedy (souts ins : list time) (acc : list Pair) (used : gset nat) :
  (fold_left (display_step souts) ins (acc, used)).1 =
  acc ++ (render_pair <$> spec_greedy_pairs time_lt ins (unused_outs used 0 souts)).
Proof.
  revert acc used. induction ins as [|a ins IH]; intros acc used; simpl.
  - by rewrite app_nil_r.
  - unfold display_step at 2. simpl.
    pose proof (scan_display_bind a used 0 souts) as Hb.
    destruct (spec_bind_earliest time_lt a (unused_outs used 0 souts))
      as [[o rest]|].
    + destruct Hb as (j & _ & -> & Hu). rewrite IH, Hu.
      rewrite <- app_assoc. reflexivity.
    + rewrite Hb. rewrite IH. rewrite <- app_assoc. reflexivity.
Qed.

Lemma greedy_pairs_ins (R : time -> time -> Prop) `{!RelDecision R}
    (ins outs : list time) :
  (spec_greedy_pairs R ins outs).*1 = ins.
Proof.
  revert outs. induction ins as [|a ins IH]; intros outs; simpl; [done|].
  destruct (spec_bind_earliest R a outs) as [[o rest]|]; simpl; by rewrite IH.
Qed.

Lemma create_pairs_render (ins outs : list time) :
  _create_pairs ins outs =
  render_pair <$> spec_greedy_pairs time_lt (sorted ins) (sorted outs).
Proof.
  assert (Hs : forall l : list time,
             match l with [] => [] | _ => sorted l end = sorted l)
    by (by intros []).
  unfold _create_pairs. rewrite !Hs, display_loop_greedy, unused_outs_empty.
  reflexivity.
Qed.

Lemma create_pairs_length (ins outs : list time) :
  length (_create_pairs ins outs) = length ins.
Proof.
  rewrite create_pairs_render, length_fmap.
  rewrite <- (length_fmap fst), greedy_pairs_ins.
  apply Permutation_length, sorted_Permutation.
Qed.

(** ** The summary of a day: the claims *)

Lemma create_pairs_perm (ins ins' outs outs' : list time) :
  ins ≡ₚ ins' -> outs ≡ₚ outs' -> _create_pairs ins outs = _create_pairs ins' outs'.
Proof.
  intros Hi Ho. unfold _create_pairs.
  assert (Hs : forall l : list time,
             match l with [] => [] | _ => sorted l end = sorted l)
    by (by intros []).
  rewrite !Hs. by rewrite (sorted_perm_eq _ _ Hi), (sorted_perm_eq _ _ Ho).
Qed.

Lemma calculate_from_pairs_perm (ins ins' outs outs' : list time) :
  ins ≡ₚ ins' -> outs ≡ₚ outs' ->
  _calculate_from_pairs ins outs = _calculate_from_pairs ins' outs'.
Proof.
  intros Hi Ho. rewrite !calculate_from_pairs_greedy. unfold minute_greedy_total.
  by rewrite (sorted_perm_eq _ _ Hi), (sorted_perm_eq _ _ Ho).
Qed.

(** In a list whose elements are all alike, the first and the last do not
    depend on the order. *)
Lemma head_perm_alike {A} (l l' : list A) :
  l ≡ₚ l' -> (forall x y, x ∈ l -> y ∈ l -> x = y) -> head l = head l'.
Proof.
  intros HP H. destruct l as [|x l], l' as [|y l']; simpl.
  - done.
  - by apply Permutation_nil_cons in HP.
  - symmetry in HP. by apply Permutation_nil_cons in HP.
  - f_equal. apply H; [left|]. rewrite HP. left.
Qed.

Lemma last_perm_alike {A} (l l' : list A) :
  l ≡ₚ l' -> (forall x y, x ∈ l -> y ∈ l -> x = y) -> last l = last l'.
Proof.
  intros HP H. destruct (last l) as [x|] eqn:Hl, (last l') as [y|] eqn:Hl'.
  - f_equal. apply H.
    + by apply last_Some_elem_of.
    + rewrite HP. by apply last_Some_elem_of.
  - apply last_None in Hl'. subst l'. apply Permutation_nil_r in HP. by subst l.
  - apply last_None in Hl. subst l. symmetry in HP.
    apply Permutation_nil_r in HP. by subst l'.
  - done.
Qed.

Lemma first_total_split (records : list PunchRecord) (r : PunchRecord) :
  r ∈ records -> is_Some (r_total_time r) ->
  exists pre record post t,
    records = pre ++ record :: post /\
    Forall (fun x => r_total_time x = None) pre /\
    r_total_time record = Some t.
Proof.
  induction records as [|a records IH]; intros Hin Hs; [by apply elem_of_nil in Hin|].
  destruct (r_total_time a) as [t|] eqn:Ha.
  - exists [], a, records, t. by repeat split.
  - apply elem_of_cons in Hin as [->|Hin].
    { rewrite Ha in Hs. by destruct Hs. }
    destruct (IH Hin Hs) as (pre & record & post & t & -> & Hpre & Ht).
    exists (a :: pre), record, post, t. repeat split; [|done]. by constructor.
Qed.

Lemma head_total_first (pre post : list PunchRecord) (record : PunchRecord) (t : time) :
  Forall (fun x => r_total_time x = None) pre -> r_total_time record = Some t ->
  head (omap r_total_time (pre ++ record :: post)) = Some t.
Proof.
  intros Hpre Ht. induction Hpre as [|a pre Ha _ IH]; simpl.
  - by rewrite Ht.
  - by rewrite Ha.
Qed.

Lemma without_total_times (records : list PunchRecord) :
  omap r_in_time (without_total <$> records) = omap r_in_time records /\
  omap r_out_time (without_total <$> records) = omap r_out_time records /\
  omap r_total_time (without_total <$> records) = [].
Proof.
  induction records as [|a l (IH1 & IH2 & IH3)]; [done|]. csimpl.
  rewrite IH1, IH2, IH3. done.
Qed.

(** C5. When some record of the day carries a device total, the day's
    total office minutes are the minutes (hour x 60 + minute) of the
    first such total in the list, whatever the IN and OUT times and
    whatever totals later records carry: the pairing plays no part in
    the total. The pairs for display are computed all the same: one pair
    for each IN time, by the greedy pairing of the sorted IN and OUT
    times -- the very pairs of the same records without their device
    totals, whose total is the one of [_calculate_from_pairs]. *)
Theorem C5_device_total_used (records : list PunchRecord) (r : PunchRecord) :
  r ∈ records -> is_Some (r_total_time r) ->
  exists pre record post t,
    records = pre ++ record :: post /\
    Forall (fun x => r_total_time x = None) pre /\
    r_total_time record = Some t /\
    total_office_minutes (_calculate_day_summary records) = hour t * 60 + minute t /\
    total_office_minutes (_calculate_day_summary records) = _time_to_minutes (Some t) /\
    in_out_pairs (_calculate_day_summary records) =
      match omap r_in_time records with
      | [] => None
      | _ => Some (render_pair <$>
                     spec_greedy_pairs time_lt (sorted (omap r_in_time records))
                                               (sorted (omap r_out_time records)))
      end /\
    length (default [] (in_out_pairs (_calculate_day_summary records))) =
      length (omap r_in_time records) /\
    in_out_pairs (_calculate_day_summary records) =
      in_out_pairs (_calculate_day_summary (without_total <$> records)) /\
    total_office_minutes (_calculate_day_summary (without_total <$> records)) =
      _calculate_from_pairs (omap r_in_time records) (omap r_out_time records).
Proof.
  intros Hin Hs.
  destruct (first_total_split records r Hin Hs) as (pre & record & post & t & -> & Hpre & Ht).
  exists pre, record, post, t.
  destruct (without_total_times (pre ++ record :: post)) as (Ei & Eo & Et).
  pose proof (create_pairs_length (omap r_in_time (pre ++ record :: post))
                (omap r_out_time (pre ++ record :: post))) as Hlen.
  pose proof (create_pairs_render (omap r_in_time (pre ++ record :: post))
                (omap r_out_time (pre ++ record :: post))) as Hren.
  unfold _calculate_day_summary. rewrite !day_loop_spec. simpl.
  rewrite Ei, Eo, Et, (head_total_first pre post record t) by done. simpl.
  repeat split; try done.
  - rewrite <- Hren.
    destruct (omap r_in_time (pre ++ record :: post));
      destruct (_create_pairs _ _); simpl in *; done.
  - rewrite <- Hlen. by destruct (_create_pairs _ _).
Qed.

Lemma C5_device_total_used_witness :
  total_office_minutes (_calculate_day_summary c5_day) = 495 /\
  in_out_pairs (_calculate_day_summary c5_day) =
    Some [mkPair (Some "09:00") (Some "12:00") (Some "3h 0m");
          mkPair (Some "09:30") (Some "13:00") (Some "3h 30m")] /\
  total_office_minutes (_calculate_day_summary (without_total <$> c5_day)) = 390.
Proof.
  destruct (C5_device_total_used c5_day
              (mkPunch "E1" 739021 None None (Some (hm 2 0)) None))
    as (pre & record & post & t & _ & _ & _ & _ & Ht & Hp & _ & _ & Hw).
  - unfold c5_day. do 2 apply list_elem_of_further. apply list_elem_of_here.
  - simpl. eexists. reflexivity.
  - split; [reflexivity|]. split; [exact Hp|exact Hw].
Defined.

(** C2, on the code. The status of a day is PRESENT exactly when the
    total office minutes reach 360, ABSENT otherwise, and never PARTIAL;
    360 is a constant of [_calculate_day_summary], not the minimum the
    policy configures: under a policy of 4 hours for present, a day of
    300 minutes is stored ABSENT. *)
Theorem C2_status_fixed_at_360 :
  (forall records,
     (status (_calculate_day_summary records) = PRESENT <->
      360 <= total_office_minutes (_calculate_day_summary records)) /\
     (status (_calculate_day_summary records) = ABSENT <->
      total_office_minutes (_calculate_day_summary records) < 360) /\
     status (_calculate_day_summary records) <> PARTIAL) /\
  (exists summary,
     upload_daily_summaries (mkDynamic 8 3 70 90 4)
       [mkPunch "E1" 739021 (Some (hm 9 0)) (Some (hm 14 0)) None None]
       !! "E1" ≫= (fun days => days !! 739021) = Some summary /\
     total_office_minutes summary = 300 /\
     ds_min_hours_for_present (mkDynamic 8 3 70 90 4) * 60 <= total_office_minutes summary /\
     status summary = ABSENT).
Proof.
  split.
  - intros records. unfold _calculate_day_summary. simpl.
    case_decide; repeat split; try done; try lia.
  - eexists. split; [vm_compute; reflexivity|]. vm_compute.
    repeat split; discriminate.
Qed.

(** C6, as the code has it. The summary of a day is the same for every
    permutation of its records provided the records do not carry two
    different device totals nor two different non-empty remarks. First
    IN, last OUT and the pairs never depend on the order; the total and
    the status follow the first device total of the list, the remark is
    the last non-empty one. *)
Theorem C6_summary_permutation (records records' : list PunchRecord) :
  records ≡ₚ records' ->
  (first_in (_calculate_day_summary records) = first_in (_calculate_day_summary records') /\
   last_out (_calculate_day_summary records) = last_out (_calculate_day_summary records') /\
   in_out_pairs (_calculate_day_summary records) =
     in_out_pairs (_calculate_day_summary records')) /\
  ((forall t t', t ∈ omap r_total_time records -> t' ∈ omap r_total_time records -> t = t') ->
   total_office_minutes (_calculate_day_summary records) =
     total_office_minutes (_calculate_day_summary records') /\
   status (_calculate_day_summary records) = status (_calculate_day_summary records')) /\
  ((forall t t', t ∈ omap r_total_time records -> t' ∈ omap r_total_time records -> t = t') ->
   (forall s s', s ∈ omap truthy_remark records -> s' ∈ omap truthy_remark records -> s = s') ->
   _calculate_day_summary records = _calculate_day_summary records').
Proof.
  intros HP.
  assert (Hi : omap r_in_time records ≡ₚ omap r_in_time records') by by rewrite HP.
  assert (Ho : omap r_out_time records ≡ₚ omap r_out_time records') by by rewrite HP.
  assert (Ht : omap r_total_time records ≡ₚ omap r_total_time records') by by rewrite HP.
  assert (Hr : omap truthy_remark records ≡ₚ omap truthy_remark records') by by rewrite HP.
  unfold _calculate_day_summary. rewrite !day_loop_spec. simpl.
  rewrite (py_min_perm _ _ Hi), (py_max_perm _ _ Ho), (create_pairs_perm _ _ _ _ Hi Ho).
  rewrite (calculate_from_pairs_perm _ _ _ _ Hi Ho).
  split; [done|]. split.
  - intros Hall. by rewrite (head_perm_alike _ _ Ht Hall).
  - intros Hall Hrem.
    by rewrite (head_perm_alike _ _ Ht Hall), (last_perm_alike _ _ Hr Hrem).
Qed.

Lemma C6_summary_permutation_witness :
  _calculate_day_summary c6_day = _calculate_day_summary (reverse c6_day).
Proof.
  refine (proj2 (proj2 (C6_summary_permutation c6_day (reverse c6_day) _)) _ _).
  - symmetry. apply reverse_Permutation.
  - intros t t' Ht Ht'. vm_compute in Ht, Ht'.
    apply list_elem_of_singleton in Ht, Ht'. congruence.
  - intros t t' Ht Ht'. vm_compute in Ht, Ht'.
    apply list_elem_of_singleton in Ht, Ht'. congruence.
Defined.

(** C6 as stated fails: two records of one day with the device totals
    08:00 and 02:00 give 480 minutes and PRESENT in one order, 120 minutes
    and ABSENT in the other. *)
Lemma C6_counterexample :
  [mkPunch "E1" 739021 (Some (hm 9 0)) None (Some (hm 8 0)) None;
   mkPunch "E1" 739021 None (Some (hm 17 0)) (Some (hm 2 0)) None] ≡ₚ
  [mkPunch "E1" 739021 None (Some (hm 17 0)) (Some (hm 2 0)) None;
   mkPunch "E1" 739021 (Some (hm 9 0)) None (Some (hm 8 0)) None] /\
  _calculate_day_summary
    [mkPunch "E1" 739021 (Some (hm 9 0)) None (Some (hm 8 0)) None;
     mkPunch "E1" 739021 None (Some (hm 17 0)) (Some (hm 2 0)) None] <>
  _calculate_day_summary
    [mkPunch "E1" 739021 None (Some (hm 17 0)) (Some (hm 2 0)) None;
     mkPunch "E1" 739021 (Some (hm 9 0)) None (Some (hm 8 0)) None].
Proof.
  split; [apply Permutation_swap|]. vm_compute. discriminate.
Qed.

(** ** The classifiers: the claims *)

Lemma get_status_color_Qeq (settings : Settings) (p q : Q) :
  (p == q)%Q -> get_status_color settings p = get_status_color settings q.
Proof.
  intros H. unfold get_status_color.
  repeat case_decide; try reflexivity; exfalso; lra.
Qed.

(** C3, on the code. [config.get_status_color] is a function of the
    percentage and of the two thresholds of the settings: RED exactly
    below the red threshold, AMBER exactly from the red threshold to the
    amber threshold, both included, GREEN exactly when the percentage is
    at least the red threshold and above the amber one (with thresholds
    90 and 70, out of order, 80 is RED). The classifier the weekly
    aggregator calls, [TimeCalculator._get_status_color], takes no
    thresholds: it is RED exactly below 70, AMBER exactly from 70 to 90,
    GREEN exactly above 90, whatever is configured. At the default
    thresholds 70 and 90 the two agree, and 67.71 is RED, 72.92 AMBER,
    100 GREEN, as are the percentages of 650, 700 and 960 minutes out of
    960. Under thresholds configured to 60 and 80, a percentage of 65 is
    AMBER for the classifier of the settings and RED for the calculator:
    a week of one day of 390 minutes against 10 expected hours has
    compliance 65 and the upload stores it RED. *)
Theorem C3_calculator_thresholds_fixed :
  (forall settings p,
     get_status_color settings (Qred p) = get_status_color settings p /\
     (get_status_color settings p = RED <->
      (p < inject_Z (THRESHOLD_RED settings))%Q) /\
     (get_status_color settings p = AMBER <->
      (inject_Z (THRESHOLD_RED settings) <= p)%Q /\
      (p <= inject_Z (THRESHOLD_AMBER settings))%Q) /\
     (get_status_color settings p = GREEN <->
      (inject_Z (THRESHOLD_RED settings) <= p)%Q /\
      (inject_Z (THRESHOLD_AMBER settings) < p)%Q)) /\
  (forall p,
     _get_status_color (Qred p) = _get_status_color p /\
     (_get_status_color p = RED <-> (p < 70)%Q) /\
     (_get_status_color p = AMBER <-> (70 <= p)%Q /\ (p <= 90)%Q) /\
     (_get_status_color p = GREEN <-> (90 < p)%Q) /\
     _get_status_color p = get_status_color default_settings p) /\
  (THRESHOLD_RED default_settings = 70 /\ THRESHOLD_AMBER default_settings = 90) /\
  (get_status_color default_settings (6771 # 100) = RED /\
   get_status_color default_settings (7292 # 100) = AMBER /\
   get_status_color default_settings 100 = GREEN) /\
  (_get_status_color (6771 # 100) = RED /\
   _get_status_color (7292 # 100) = AMBER /\
   _get_status_color 100 = GREEN) /\
  (_get_status_color (percent_of 650 960) = RED /\
   _get_status_color (percent_of 700 960) = AMBER /\
   _get_status_color (percent_of 960 960) = GREEN) /\
  get_status_color (mkSettings 8 3 2 90 70) 80 = RED /\
  (get_status_color (mkSettings 8 3 2 60 80) 65 = AMBER /\
   _get_status_color 65 = RED) /\
  (exists w,
     calculate_weekly_summary (upload_calculator c3_policy)
       (upload_daily_summaries c3_policy c3_day) 739019 739025 None !! "E1" = Some w /\
     w_total_office_minutes w = 390 /\ expected_minutes w = 600 /\
     compliance_percentage w = 65%Q /\
     (inject_Z (ds_threshold_red c3_policy) <= compliance_percentage w)%Q /\
     (compliance_percentage w <= inject_Z (ds_threshold_amber c3_policy))%Q /\
     w_status w = RED).
Proof.
  split; [|split].
  - intros settings p. split; [apply get_status_color_Qeq, Qred_correct|].
    unfold get_status_color. repeat case_decide; repeat split; try done; try lra;
      intros; try done; try lra.
    all: try match goal with H : _ /\ _ |- _ => destruct H; lra end.
  - intros p. split; [apply (get_status_color_Qeq default_settings), Qred_correct|].
    unfold _get_status_color, get_status_color. simpl.
    repeat case_decide; repeat split; try done; try lra;
      intros; try done; try lra.
    all: try match goal with H : _ /\ _ |- _ => destruct H; lra end.
  - repeat split; try reflexivity.
    eexists. split; [vm_compute; reflexivity|].
    repeat split; vm_compute; discriminate.
Qed.

(** The colour of the day's compliance against the classifier at its
    default thresholds: they differ at 90 and nowhere else. *)
Lemma daily_status_color_default (p : Q) :
  daily_status_color p = get_status_color default_settings p <-> ~ (p == 90)%Q.
Proof.
  unfold daily_status_color, get_status_color. simpl. unfold inject_Z. split.
  - intros Heq Hp. revert Heq. rewrite (decide_True (P := (90 <= p)%Q)) by lra.
    rewrite (decide_False (P := (p < _)%Q)) by lra.
    rewrite (decide_True (P := (p <= _)%Q)) by lra. discriminate.
  - intros Hne. repeat case_decide; try reflexivity; exfalso; lra.
Qed.

(** C7, on the code. The colour of a day in the individual report is
    decided by cut-offs written into [get_individual_report], not by the
    classifier: a day of 432 minutes out of 480 expected has compliance
    90, which the report colours GREEN and both classifiers AMBER; and
    under thresholds configured to 60 and 80 a compliance of 65 is
    AMBER for the classifier of the settings and RED in the report, as it
    is for the calculator, whose thresholds are written in as well. *)
Theorem C7_daily_colour_not_classifier :
  (daily_compliance (8 * 60) 432 == 90)%Q /\
  daily_status_color (daily_compliance (8 * 60) 432) = GREEN /\
  get_status_color default_settings (daily_compliance (8 * 60) 432) = AMBER /\
  _get_status_color (daily_compliance (8 * 60) 432) = AMBER /\
  daily_status_color 65 = RED /\
  _get_status_color 65 = RED /\
  get_status_color (mkSettings 8 3 2 60 80) 65 = AMBER.
Proof. repeat split; reflexivity. Qed.

(** ** The summary of a week *)

Lemma week_step_comm (ws we : Z) (d1 d2 : Z) (s1 s2 : DailySummary) (acc : Z * Z) :
  week_step ws we d1 s1 (week_step ws we d2 s2 acc) =
  week_step ws we d2 s2 (week_step ws we d1 s1 acc).
Proof.
  unfold week_step. destruct acc as [t n].
  repeat case_decide; simpl; f_equal; lia.
Qed.

Lemma week_fold_insert (ws we : Z) (d : Z) (s : DailySummary)
    (m : gmap Z DailySummary) (acc : Z * Z) :
  m !! d = None ->
  map_fold (week_step ws we) acc (<[d:=s]> m) =
  week_step ws we d s (map_fold (week_step ws we) acc m).
Proof.
  intros H. apply map_fold_insert_L; [|done].
  intros. apply week_step_comm.
Qed.

Lemma sum_minutes_insert (d : Z) (s : DailySummary) (m : gmap Z DailySummary) :
  m !! d = None ->
  spec_sum_minutes (<[d:=s]> m) = total_office_minutes s + spec_sum_minutes m.
Proof.
  intros H. unfold spec_sum_minutes.
  assert (Hperm : forall l l' : list Z, l ≡ₚ l' -> foldr Z.add 0 l = foldr Z.add 0 l').
  { induction 1; simpl; lia. }
  rewrite (Hperm _ (total_office_minutes s ::
     ((fun p : Z * DailySummary => total_office_minutes p.2) <$> map_to_list m))).
  - done.
  - by rewrite (map_to_list_insert m d s H).
Qed.

Lemma office_days_insert (d : Z) (s : DailySummary) (m : gmap Z DailySummary) :
  m !! d = None ->
  spec_office_days (<[d:=s]> m) =
  (if decide (status s ∈ [PRESENT; PARTIAL]) then spec_office_days m + 1
   else spec_office_days m).
Proof.
  intros H. unfold spec_office_days. case_decide as Hs.
  - rewrite map_filter_insert_True.
    + rewrite map_size_insert_None; [lia|].
      apply map_lookup_filter_None. by left.
    + simpl. apply elem_of_cons in Hs as [?|Hs]; [by left|].
      apply list_elem_of_singleton in Hs. by right.
  - rewrite map_filter_insert_not'; [done| |by rewrite H].
    simpl. intros [Hp|Hp]; apply Hs; rewrite Hp.
    + apply list_elem_of_here.
    + apply list_elem_of_further, list_elem_of_here.
Qed.

Lemma week_fold_spec (ws we : Z) (ds : gmap Z DailySummary) :
  map_fold (week_step ws we) (0, 0) ds =
  (spec_sum_minutes (spec_restricted ws we ds),
   spec_office_days (spec_restricted ws we ds)).
Proof.
  induction ds as [|d s m Hd IH] using map_ind.
  - rewrite map_fold_empty. unfold spec_restricted. by rewrite map_filter_empty.
  - rewrite week_fold_insert by done. rewrite IH. unfold week_step, spec_restricted.
    simpl. case_decide as Hw.
    + rewrite map_filter_insert_True by done.
      assert (Hn : filter (fun p : Z * DailySummary => ws <= p.1 <= we) m !! d = None)
        by (apply map_lookup_filter_None; by left).
      rewrite (sum_minutes_insert _ _ _ Hn), (office_days_insert _ _ _ Hn).
      f_equal. lia.
    + rewrite map_filter_insert_not'; [done|done|by rewrite Hd].
Qed.

Lemma week_fold_outside (ws we : Z) (ds : gmap Z DailySummary) :
  (forall d s, ds !! d = Some s -> ~ (ws <= d <= we)) ->
  map_fold (week_step ws we) (0, 0) ds = (0, 0).
Proof.
  intros H. rewrite week_fold_spec.
  assert (He : spec_restricted ws we ds = ∅).
  { unfold spec_restricted. apply map_empty_filter_2. intros d s Hl. simpl.
    exact (H d s Hl). }
  rewrite He. unfold spec_sum_minutes, spec_office_days.
  by rewrite map_to_list_empty, map_filter_empty, map_size_empty.
Qed.

(** ** Rounding to hundredths *)



Lemma round_half_even_floor (x : Q) : Qfloor x <= round_half_even x.
Proof.
  unfold round_half_even.
  destruct (Qcompare _ _); [destruct (Z.even _)|..]; lia.
Qed.

Lemma py_round2_ge_70 (x : Q) : (70 <= x)%Q -> (70 <= py_round2 x)%Q.
Proof.
  intros H. unfold py_round2. rewrite Qred_correct.
  assert (H1 : (inject_Z 7000 <= x * 100)%Q)
    by (change (inject_Z 7000) with 7000%Q; lra).
  apply Qfloor_resp_le in H1. rewrite Qfloor_Z in H1.
  pose proof (round_half_even_floor (x * 100)) as H2.
  assert (H3 : 7000 <= round_half_even (x * 100)) by lia.
  rewrite Zle_Qle in H3. change (inject_Z 7000) with 7000%Q in H3.
  generalize dependent (inject_Z (round_half_even (x * 100))). intros n H3.
  unfold Qdiv. change (/ 100)%Q with (1 # 100)%Q. lra.
Qed.

(** ** Rounding to the nearest double *)

Lemma pow2_pos (z : Z) : (0 < 2 ^ z)%Q.
Proof. apply Qpower_0_lt. reflexivity. Qed.

Lemma pow2_succ (z : Z) : (2 ^ (z + 1) == 2 * 2 ^ z)%Q.
Proof. rewrite Qpower_plus by discriminate. change (2 ^ 1)%Q with 2%Q. ring. Qed.

Lemma pow2_le (a b : Z) : a <= b -> (2 ^ a <= 2 ^ b)%Q.
Proof. intros H. apply Qpower_le_compat_l; [done|]. discriminate. Qed.

Lemma pow2_Z (n : Z) : 0 <= n -> (inject_Z (2 ^ n) == 2 ^ n)%Q.
Proof. intros H. by rewrite Zpower_Qpower. Qed.

(** [ilog2] is the binary exponent. *)
Lemma ilog2_spec (a : Q) :
  (0 < a)%Q -> (2 ^ ilog2 a <= a)%Q /\ (a < 2 ^ (ilog2 a + 1))%Q.
Proof.
  intros Ha. destruct a as [n d]. unfold ilog2. cbn [Qnum Qden].
  assert (Hn : 0 < n) by (unfold Qlt in Ha; simpl in Ha; lia).
  pose proof (Z.log2_spec n Hn) as [Hn1 Hn2].
  pose proof (Z.log2_spec (Z.pos d) ltac:(lia)) as [Hd1 Hd2].
  pose proof (Z.log2_nonneg n) as Hln. pose proof (Z.log2_nonneg (Z.pos d)) as Hld.
  set (ln := Z.log2 n) in *. set (ld := Z.log2 (Z.pos d)) in *.
  assert (HA : (inject_Z (2 ^ ln) == 2 ^ ln)%Q) by by apply pow2_Z.
  assert (HB : (inject_Z (2 ^ ld) == 2 ^ ld)%Q) by by apply pow2_Z.
  rewrite Zle_Qle in Hn1, Hd1. rewrite Zlt_Qlt in Hn2, Hd2.
  rewrite Z.pow_succ_r in Hn2, Hd2 by done.
  rewrite inject_Z_mult in Hn2, Hd2. rewrite HA in Hn1, Hn2. rewrite HB in Hd1, Hd2.
  change (inject_Z 2) with 2%Q in *.
  assert (Hq : (n # d == inject_Z n / inject_Z (Z.pos d))%Q) by apply Qmake_Qdiv.
  assert (Hl : (2 ^ (ln - ld) == 2 ^ ln / 2 ^ ld)%Q)
    by (apply Qpower_minus; discriminate).
  assert (Hl1 : (2 ^ (ln - ld + 1) == 2 * 2 ^ (ln - ld))%Q) by apply pow2_succ.
  assert (Hm : (2 ^ (ln - ld - 1) == 2 ^ (ln - ld) / 2)%Q).
  { rewrite Qpower_minus by discriminate. reflexivity. }
  pose proof (pow2_pos ln) as HpA. pose proof (pow2_pos ld) as HpB.
  assert (Hdpos : (0 < inject_Z (Z.pos d))%Q)
    by (change 0%Q with (inject_Z 0); rewrite <- Zlt_Qlt; lia).
  assert (HaD : ((n # d) * inject_Z (Z.pos d) == inject_Z n)%Q)
    by (rewrite Hq; field; lra).
  assert (HX : (2 ^ (ln - ld) * 2 ^ ld == 2 ^ ln)%Q) by (rewrite Hl; field; lra).
  clear Hq Hl HA HB.
  case_decide as Hc; [|replace (ln - ld - 1 + 1) with (ln - ld) by lia].
  all: generalize dependent (2 ^ (ln - ld + 1))%Q;
    generalize dependent (2 ^ (ln - ld - 1))%Q;
    generalize dependent (2 ^ (ln - ld))%Q;
    generalize dependent (inject_Z n); generalize dependent (inject_Z (Z.pos d));
    generalize dependent (2 ^ ln)%Q; generalize dependent (2 ^ ld)%Q;
    generalize dependent (n # d); clear;
    intros a Ha B HB A HA D HD1 HD2 HD N HN1 HN2 HaD P HX Hc P0 HP0 P1 HP1.
  - assert (HP : (0 < P)%Q).
    { apply (Qmult_lt_r _ _ B HB). nra. }
    split; [done|].
    assert (H1 : (P * B <= P * D)%Q) by (apply Qmult_le_l; done).
    apply (Qmult_lt_r _ _ D HD). nra.
  - assert (HP : (0 < P)%Q).
    { apply (Qmult_lt_r _ _ B HB). nra. }
    split; [|lra].
    assert (H1 : (P * D <= P * (2 * B))%Q) by (apply Qmult_le_l; [done|lra]).
    assert (H2 : (P0 * D == P * D / 2)%Q) by (rewrite HP0; field).
    apply (Qmult_le_r _ _ D HD). rewrite H2, HaD.
    assert (H3 : (P * (2 * B) == 2 * A)%Q) by (rewrite <- HX; ring).
    rewrite H3 in H1. generalize dependent (P * D)%Q. intros. clear - H1 HN1. unfold Qdiv. change (/ 2)%Q with (1 # 2)%Q. lra.
Qed.

Lemma round_half_even_ceil (x : Q) : round_half_even x <= Qfloor x + 1.
Proof.
  unfold round_half_even.
  destruct (Qcompare _ _); [destruct (Z.even _)|..]; lia.
Qed.

Lemma round_half_even_mono (x y : Q) :
  (x <= y)%Q -> round_half_even x <= round_half_even y.
Proof.
  intros H. pose proof (Qfloor_resp_le x y H) as Hf.
  destruct (decide (Qfloor x = Qfloor y)) as [He|Hne].
  - unfold round_half_even. rewrite <- He.
    destruct (Qcompare (x - inject_Z (Qfloor x)) (1 # 2)) eqn:Hx;
      destruct (Qcompare (y - inject_Z (Qfloor x)) (1 # 2)) eqn:Hy;
      try (destruct (Z.even (Qfloor x))); try lia; exfalso;
      repeat match goal with
             | H : (_ ?= _)%Q = Eq |- _ => apply Qeq_alt in H
             | H : (_ ?= _)%Q = Lt |- _ => apply Qlt_alt in H
             | H : (_ ?= _)%Q = Gt |- _ => apply Qgt_alt in H
             end; lra.
  - pose proof (round_half_even_ceil x). pose proof (round_half_even_floor y). lia.
Qed.

Lemma round_half_even_Z (n : Z) : round_half_even (inject_Z n) = n.
Proof.
  unfold round_half_even. rewrite Qfloor_Z.
  assert (H : (inject_Z n - inject_Z n ?= 1 # 2)%Q = Lt).
  { apply (proj1 (Qlt_alt _ _)). generalize (inject_Z n). intros q. lra. }
  by rewrite H.
Qed.

Lemma py_round2_mono (x y : Q) : (x <= y)%Q -> (py_round2 x <= py_round2 y)%Q.
Proof.
  intros H. unfold py_round2. rewrite !Qred_correct.
  assert (H1 : round_half_even (x * 100) <= round_half_even (y * 100))
    by (apply round_half_even_mono; lra).
  rewrite Zle_Qle in H1.
  generalize dependent (inject_Z (round_half_even (x * 100))).
  generalize dependent (inject_Z (round_half_even (y * 100))). intros n m Hm.
  unfold Qdiv. change (/ 100)%Q with (1 # 100)%Q. lra.
Qed.

Lemma ilog2_mono (a b : Q) : (0 < a)%Q -> (a <= b)%Q -> ilog2 a <= ilog2 b.
Proof.
  intros Ha Hab. destruct (ilog2_spec a Ha) as [H1 _].
  destruct (ilog2_spec b ltac:(lra)) as [_ H2].
  assert (H : (2 ^ ilog2 a < 2 ^ (ilog2 b + 1))%Q) by lra.
  apply Qpower_lt_compat_l_inv in H; [lia|reflexivity].
Qed.

Lemma pow2_split (e : Z) :
  (2 ^ e == inject_Z (2 ^ 52) * 2 ^ (e - 52))%Q /\
  (2 ^ (e + 1) == inject_Z (2 ^ 53) * 2 ^ (e - 52))%Q.
Proof.
  assert (E1 : (2 ^ e == inject_Z (2 ^ 52) * 2 ^ (e - 52))%Q).
  { rewrite Qpower_minus by discriminate. rewrite pow2_Z by lia. field. }
  split; [done|]. rewrite pow2_succ, E1. change (2 ^ 53) with (2 * 2 ^ 52).
  rewrite inject_Z_mult. change (inject_Z 2) with 2%Q. ring.
Qed.

(** The scaled significand lies between 2^52 and 2^53. *)
Lemma significand_range (a : Q) :
  (0 < a)%Q ->
  2 ^ 52 <= round_half_even (a / 2 ^ (ilog2 a - 52)) <= 2 ^ 53.
Proof.
  intros Ha. destruct (ilog2_spec a Ha) as [H1 H2].
  pose proof (pow2_pos (ilog2 a - 52)) as Hs.
  destruct (pow2_split (ilog2 a)) as [E1 E2].
  rewrite E1 in H1. rewrite E2 in H2.
  clear E1 E2. revert H1 H2 Hs. generalize (2 ^ (ilog2 a - 52))%Q. intros S H1 H2 HS.
  assert (L1 : (inject_Z (2 ^ 52) <= a / S)%Q).
  { apply Qle_shift_div_l; done. }
  assert (L2 : (a / S <= inject_Z (2 ^ 53))%Q).
  { apply Qle_shift_div_r; [done|lra]. }
  apply round_half_even_mono in L1, L2. rewrite round_half_even_Z in L1, L2. lia.
Qed.

(** Rounding stays within the binade. *)
Lemma fl_pos_range (a : Q) :
  (0 < a)%Q -> (2 ^ ilog2 a <= fl_pos a)%Q /\ (fl_pos a <= 2 ^ (ilog2 a + 1))%Q.
Proof.
  intros Ha. destruct (significand_range a Ha) as [H1 H2]. unfold fl_pos.
  pose proof (pow2_pos (ilog2 a - 52)) as Hs.
  destruct (pow2_split (ilog2 a)) as [E1 E2].
  rewrite E1, E2. rewrite Zle_Qle in H1, H2.
  split; apply Qmult_le_compat_r; try done; lra.
Qed.

Lemma fl_pos_pos (a : Q) : (0 < a)%Q -> (0 < fl_pos a)%Q.
Proof.
  intros Ha. destruct (fl_pos_range a Ha) as [H _].
  pose proof (pow2_pos (ilog2 a)). lra.
Qed.

Lemma fl_pos_mono (a b : Q) : (0 < a)%Q -> (a <= b)%Q -> (fl_pos a <= fl_pos b)%Q.
Proof.
  intros Ha Hab. assert (Hb : (0 < b)%Q) by lra.
  pose proof (ilog2_mono a b Ha Hab) as Hl.
  destruct (decide (ilog2 a = ilog2 b)) as [He|Hne].
  - unfold fl_pos. rewrite He.
    pose proof (pow2_pos (ilog2 b - 52)) as Hs.
    apply Qmult_le_compat_r; [|lra]. rewrite <- Zle_Qle.
    apply round_half_even_mono. apply Qmult_le_compat_r; [done|].
    apply Qlt_le_weak, Qinv_lt_0_compat. done.
  - destruct (fl_pos_range a Ha) as [_ H1]. destruct (fl_pos_range b Hb) as [H2 _].
    assert (H3 : (2 ^ (ilog2 a + 1) <= 2 ^ ilog2 b)%Q) by (apply pow2_le; lia).
    lra.
Qed.

(** Rounding to the nearest double is monotone. *)
Lemma fl_mono (a b : Q) : (a <= b)%Q -> (fl a <= fl b)%Q.
Proof.
  intros Hab. unfold fl.
  destruct (decide (0 < a)%Q) as [Ha|Ha].
  - rewrite (decide_True (P := (0 < b)%Q)) by lra. by apply fl_pos_mono.
  - destruct (decide (a < 0)%Q) as [Ha'|Ha'].
    + assert (Hn : (0 < fl_pos (- a))%Q) by (apply fl_pos_pos; lra).
      destruct (decide (0 < b)%Q) as [Hb|Hb].
      * pose proof (fl_pos_pos b Hb). lra.
      * destruct (decide (b < 0)%Q) as [Hb'|Hb']; [|lra].
        assert (H : (fl_pos (- b) <= fl_pos (- a))%Q) by (apply fl_pos_mono; lra).
        lra.
    + destruct (decide (0 < b)%Q) as [Hb|Hb].
      * pose proof (fl_pos_pos b Hb). lra.
      * rewrite (decide_False (P := (b < 0)%Q)) by lra. lra.
Qed.

Lemma fl_Qeq (a b : Q) : (a == b)%Q -> (fl a == fl b)%Q.
Proof.
  intros H. apply Qle_antisym; apply fl_mono; lra.
Qed.

Lemma float_percent_mono (p q : Q) :
  (p <= q)%Q -> (fl (fl p * 100) <= fl (fl q * 100))%Q.
Proof.
  intros H. apply fl_mono. apply fl_mono in H. lra.
Qed.




(** ** The colour of a percentage in whole minutes *)

Lemma percent_of_lt (t e k : Z) :
  0 < e -> (percent_of t e < inject_Z k)%Q <-> 100 * t < k * e.
Proof.
  intros He. destruct e as [|p|p]; try lia.
  unfold percent_of, Qlt, Qdiv, Qmult, Qinv, inject_Z. simpl.
  rewrite ?Pos.mul_1_r, ?Pos.mul_1_l, ?Z.mul_1_r.
  rewrite (Z.mul_comm t 100). reflexivity.
Qed.

Lemma percent_of_le (t e k : Z) :
  0 < e -> (percent_of t e <= inject_Z k)%Q <-> 100 * t <= k * e.
Proof.
  intros He. destruct e as [|p|p]; try lia.
  unfold percent_of, Qle, Qdiv, Qmult, Qinv, inject_Z. simpl.
  rewrite ?Pos.mul_1_r, ?Pos.mul_1_l, ?Z.mul_1_r.
  rewrite (Z.mul_comm t 100). reflexivity.
Qed.

Lemma status_color_minutes (t e : Z) :
  0 < e ->
  _get_status_color (percent_of t e) =
  if decide (10 * t < 7 * e) then RED
  else if decide (10 * t <= 9 * e) then AMBER else GREEN.
Proof.
  intros He. unfold _get_status_color.
  pose proof (percent_of_lt t e 70 He) as H1.
  pose proof (percent_of_le t e 90 He) as H2.
  change (inject_Z 70) with 70%Q in H1. change (inject_Z 90) with 90%Q in H2.
  destruct (decide (percent_of t e < 70)%Q) as [Ha|Ha]; rewrite H1 in Ha.
  { rewrite decide_True by lia. reflexivity. }
  rewrite (decide_False (P := 10 * t < 7 * e)) by lia.
  destruct (decide (percent_of t e <= 90)%Q) as [Hb|Hb]; rewrite H2 in Hb.
  - rewrite decide_True by lia. reflexivity.
  - rewrite decide_False by lia. reflexivity.
Qed.

Lemma quotient_le (t e n : Z) (d : positive) :
  0 < e -> t * Z.pos d <= n * e -> (inject_Z t / inject_Z e <= n # d)%Q.
Proof.
  intros He H. destruct e as [|p|p]; try lia.
  unfold Qle, Qdiv, Qmult, Qinv, inject_Z. simpl.
  rewrite ?Pos.mul_1_r, ?Pos.mul_1_l, ?Z.mul_1_r. exact H.
Qed.

Lemma quotient_ge (t e n : Z) (d : positive) :
  0 < e -> n * e <= t * Z.pos d -> (n # d <= inject_Z t / inject_Z e)%Q.
Proof.
  intros He H. destruct e as [|p|p]; try lia.
  unfold Qle, Qdiv, Qmult, Qinv, inject_Z. simpl.
  rewrite ?Pos.mul_1_r, ?Pos.mul_1_l, ?Z.mul_1_r. exact H.
Qed.

Lemma float_percent_le (t e n : Z) (d : positive) :
  0 < e -> t * Z.pos d <= n * e ->
  (float_percent t e <= fl (fl (n # d) * 100))%Q.
Proof. intros He H. apply float_percent_mono. by apply quotient_le. Qed.

Lemma float_percent_ge (t e n : Z) (d : positive) :
  0 < e -> n * e <= t * Z.pos d ->
  (fl (fl (n # d) * 100) <= float_percent t e)%Q.
Proof. intros He H. apply float_percent_mono. by apply quotient_ge. Qed.


(** ** The summary of a week: the claims *)

Lemma weekly_lookup (self : TimeCalculator)
    (daily_summaries : gmap string (gmap Z DailySummary)) (emp : string)
    (ws we : Z) (reqs : option (gmap string Z)) :
  calculate_weekly_summary self daily_summaries ws we reqs !! emp =
  weekly_of self ws we <$> daily_summaries !! emp.
Proof. unfold calculate_weekly_summary. apply lookup_fmap. Qed.





(** C10. Every employee of the daily map gets a weekly summary for every
    window; when none of the employee's days lies in the window it has
    total 0, office-day count 0, expected minutes 0, compliance 0 and
    status RED. *)
Theorem C10_weekly_outside_window (self : TimeCalculator)
    (daily_summaries : gmap string (gmap Z DailySummary)) (emp : string)
    (date_summaries : gmap Z DailySummary) (ws we : Z)
    (reqs : option (gmap string Z)) :
  daily_summaries !! emp = Some date_summaries ->
  is_Some (calculate_weekly_summary self daily_summaries ws we reqs !! emp) /\
  ((forall d s, date_summaries !! d = Some s -> ~ (ws <= d <= we)) ->
   calculate_weekly_summary self daily_summaries ws we reqs !! emp =
   Some {| week_start := ws; week_end := we; w_total_office_minutes := 0;
           wfo_days := 0; expected_minutes := 0; compliance_percentage := 0%Q;
           w_status := RED |}).
Proof.
  intros Hl. rewrite weekly_lookup, Hl. simpl. split; [by eexists|].
  intros Hout. unfold weekly_of. rewrite (week_fold_outside _ _ _ Hout). simpl.
  reflexivity.
Qed.

Lemma C10_weekly_outside_window_witness :
  calculate_weekly_summary (mkCalculator 8 2) c4_overtime 739026 739032 None !! "E1" =
  Some (mkWeekly 739026 739032 0 0 0 0%Q RED).
Proof.
  refine (proj2 (C10_weekly_outside_window (mkCalculator 8 2) c4_overtime "E1"
                   {[ 739021 := mkDaily 600 PRESENT None None None None ]}
                   739026 739032 None eq_refl) _).
  intros d s Hd. apply lookup_singleton_Some in Hd as [<- _]. lia.
Defined.

(** ** Weeks *)

Lemma weekday_range (d : Z) : 0 <= weekday d < 7.
Proof. unfold weekday. apply Z.mod_pos_bound. lia. Qed.

Lemma weekday_monday (d : Z) : weekday (d - weekday d) = 0.
Proof.
  unfold weekday.
  replace (d - (d + 6) mod 7 + 6) with ((d + 6) - (d + 6) mod 7) by lia.
  rewrite Zminus_mod_idemp_r. rewrite Z.sub_diag. reflexivity.
Qed.

#[global] Instance week_le_trans : Transitive week_le.
Proof. intros a b c. unfold week_le. lia. Qed.

#[global] Instance week_le_total : Total week_le.
Proof. intros a b. unfold week_le. lia. Qed.

#[global] Instance week_le_antisym : AntiSymm (=) week_le.
Proof.
  intros [a1 a2] [b1 b2]. unfold week_le. simpl. intros H1 H2.
  f_equal; lia.
Qed.

Lemma weeks_loop (dates : list Z) (weeks : gset (Z * Z)) :
  fold_left (fun weeks d => {[get_week_bounds d]} ∪ weeks) dates weeks =
  list_to_set (get_week_bounds <$> dates) ∪ weeks.
Proof.
  revert weeks. induction dates as [|d dates IH]; intros weeks; simpl.
  - by rewrite (left_id_L ∅ (∪)).
  - rewrite IH. rewrite (assoc_L (∪)).
    by rewrite (comm_L (∪) (list_to_set _) {[get_week_bounds d]}).
Qed.

Lemma get_all_weeks_set (dates : list Z) :
  get_all_weeks dates =
  merge_sort week_le (elements (list_to_set (get_week_bounds <$> dates) : gset (Z * Z))).
Proof.
  unfold get_all_weeks. rewrite weeks_loop. by rewrite (right_id_L ∅ (∪)).
Qed.

Lemma elem_of_get_all_weeks (dates : list Z) (w : Z * Z) :
  w ∈ get_all_weeks dates <-> exists d, d ∈ dates /\ w = get_week_bounds d.
Proof.
  rewrite get_all_weeks_set, merge_sort_Permutation, elem_of_elements,
    elem_of_list_to_set, list_elem_of_fmap.
  split; intros (d & H1 & H2); exists d; done.
Qed.

Lemma get_all_weeks_NoDup (dates : list Z) : NoDup (get_all_weeks dates).
Proof.
  rewrite get_all_weeks_set, merge_sort_Permutation. apply NoDup_elements.
Qed.

Lemma get_all_weeks_perm (dates dates' : list Z) :
  dates ≡ₚ dates' -> get_all_weeks dates = get_all_weeks dates'.
Proof. intros H. rewrite !get_all_weeks_set. by rewrite H. Qed.

Lemma get_all_weeks_increasing (dates : list Z) :
  StronglySorted (fun a b : Z * Z => a.1 < b.1) (get_all_weeks dates).
Proof.
  pose proof (get_all_weeks_NoDup dates) as Hnd.
  assert (Hs : StronglySorted week_le (get_all_weeks dates)).
  { rewrite get_all_weeks_set. apply (StronglySorted_merge_sort week_le). }
  assert (Hw : Forall (fun w : Z * Z => w.2 = w.1 + 6) (get_all_weeks dates)).
  { apply Forall_forall. intros w Hin.
    apply elem_of_get_all_weeks in Hin as (d & _ & ->). reflexivity. }
  induction Hs as [|a l Hs IH Ha]; [constructor|].
  apply NoDup_cons in Hnd as [Hna Hnd]. apply Forall_cons in Hw as [Hwa Hw].
  constructor; [by apply IH|].
  rewrite Forall_forall in Ha, Hw. apply Forall_forall. intros b Hb.
  destruct (Ha b Hb) as [?|[He Hle]]; [done|]. exfalso. apply Hna.
  specialize (Hw b Hb). destruct a as [a1 a2], b as [b1 b2]. simpl in *.
  by replace a1 with b1; replace a2 with b2 by lia.
Qed.

(** C8. [get_all_weeks] returns exactly the (Monday, Sunday) pairs of the
    dates given, each once: the week start is a Monday, on or before the
    date and less than seven days before it, the week end is the week
    start + 6 days; the sequence is strictly increasing in week start and
    is the same for every permutation of the dates. 2024-05-15, a
    Wednesday, gives 2024-05-13 to 2024-05-19. *)
Theorem C8_week_partition :
  (forall d, weekday (get_week_bounds d).1 = 0 /\
             (get_week_bounds d).1 <= d <= (get_week_bounds d).2 /\
             (get_week_bounds d).2 = (get_week_bounds d).1 + 6) /\
  (forall dates w,
     w ∈ get_all_weeks dates <-> exists d, d ∈ dates /\ w = get_week_bounds d) /\
  (forall dates, NoDup (get_all_weeks dates)) /\
  (forall dates, StronglySorted (fun a b : Z * Z => a.1 < b.1) (get_all_weeks dates)) /\
  (forall dates dates', dates ≡ₚ dates' -> get_all_weeks dates = get_all_weeks dates') /\
  (weekday (ymd 2024 5 15) = 2 /\
   get_week_bounds (ymd 2024 5 15) = (ymd 2024 5 13, ymd 2024 5 19) /\
   get_all_weeks [ymd 2024 5 15] = [(ymd 2024 5 13, ymd 2024 5 19)]).
Proof.
  split.
  { intros d. unfold get_week_bounds. simpl.
    pose proof (weekday_range d). split; [apply weekday_monday|]. lia. }
  split; [exact elem_of_get_all_weeks|].
  split; [exact get_all_weeks_NoDup|].
  split; [exact get_all_weeks_increasing|].
  split; [exact get_all_weeks_perm|].
  repeat split; vm_compute; reflexivity.
Qed.

Lemma C8_week_partition_witness :
  get_all_weeks [ymd 2024 5 22; ymd 2024 5 15; ymd 2024 5 13] =
  get_all_weeks [ymd 2024 5 13; ymd 2024 5 15; ymd 2024 5 22].
Proof.
  apply (proj1 (proj2 (proj2 (proj2 (proj2 C8_week_partition))))).
  change [ymd 2024 5 13; ymd 2024 5 15; ymd 2024 5 22]
    with (reverse [ymd 2024 5 22; ymd 2024 5 15; ymd 2024 5 13]).
  symmetry. apply reverse_Permutation.
Defined.

(** * Further properties of the code *)

(** ** The pairs for display *)

(** X1. The pairs [_create_pairs] returns are the greedy pairing of the
    sorted lists on strictly greater OUT times, one pair for every IN time
    in ascending order: each IN is shown with the earliest OUT later than
    it that no earlier IN has taken, or without OUT. *)
Theorem X1_create_pairs_greedy (ins outs : list time) :
  _create_pairs ins outs =
    render_pair <$> spec_greedy_pairs time_lt (sorted ins) (sorted outs) /\
  length (_create_pairs ins outs) = length ins /\
  pair_in <$> _create_pairs ins outs = (fun t => Some (strftime_HM t)) <$> sorted ins.
Proof.
  split; [apply create_pairs_render|]. split; [apply create_pairs_length|].
  rewrite create_pairs_render.
  rewrite <- (greedy_pairs_ins time_lt (sorted ins) (sorted outs)) at 2.
  rewrite <- !list_fmap_compose. apply list_fmap_ext.
  intros _ [a [o|]] _; reflexivity.
Qed.

(** ** First IN, last OUT *)

(** X2. In the summary of a day the first IN is one of the day's IN
    times and no IN time is earlier, the last OUT is one of the OUT times
    and none is later; either is absent exactly when the day has no such
    time, and the day has no pairs exactly when it has no first IN. *)
Theorem X2_day_first_in_last_out (records : list PunchRecord) :
  match first_in (_calculate_day_summary records) with
  | Some m => m ∈ omap r_in_time records /\
              Forall (time_le m) (omap r_in_time records)
  | None => omap r_in_time records = []
  end /\
  match last_out (_calculate_day_summary records) with
  | Some m => m ∈ omap r_out_time records /\
              Forall (fun t => time_le t m) (omap r_out_time records)
  | None => omap r_out_time records = []
  end /\
  (in_out_pairs (_calculate_day_summary records) = None <->
   first_in (_calculate_day_summary records) = None).
Proof.
  unfold _calculate_day_summary. rewrite day_loop_spec. simpl.
  split; [|split].
  - destruct (omap r_in_time records) as [|x l]; simpl; [done|].
    destruct (fold_min_spec l x) as [Hin Hle]. split; [done|].
    by apply Forall_forall.
  - destruct (omap r_out_time records) as [|x l]; simpl; [done|].
    destruct (fold_max_spec l x) as [Hin Hle]. split; [done|].
    by apply Forall_forall.
  - pose proof (create_pairs_length (omap r_in_time records)
                                    (omap r_out_time records)) as Hlen.
    destruct (omap r_in_time records) as [|x l];
      destruct (_create_pairs _ _) as [|p ps]; simpl in *; try done.
Qed.

(** ** Grouping the records *)

Lemma group_step_lookup (groups : gmap string (gmap Z (list PunchRecord)))
    (r : PunchRecord) (c : string) (d : Z) :
  group_step groups r !! c ≫= (fun m => m !! d) =
  if decide (r_code r = c /\ r_date r = d)
  then Some (default [] (groups !! c ≫= (fun m => m !! d)) ++ [r])
  else groups !! c ≫= (fun m => m !! d).
Proof.
  unfold group_step. destruct (decide (r_code r = c)) as [<-|Hc].
  - rewrite lookup_insert_eq. simpl.
    destruct (decide (r_date r = d)) as [<-|Hd].
    + rewrite lookup_insert_eq. rewrite decide_True by done.
      by destruct (groups !! r_code r).
    + rewrite lookup_insert_ne by done. rewrite decide_False by tauto.
      by destruct (groups !! r_code r).
  - rewrite lookup_insert_ne by done. rewrite decide_False by tauto. done.
Qed.

Lemma group_loop_lookup (records : list PunchRecord)
    (groups : gmap string (gmap Z (list PunchRecord))) (c : string) (d : Z) :
  fold_left group_step records groups !! c ≫= (fun m => m !! d) =
  match records_of c d records with
  | [] => groups !! c ≫= (fun m => m !! d)
  | l => Some (default [] (groups !! c ≫= (fun m => m !! d)) ++ l)
  end.
Proof.
  revert groups. induction records as [|r records IH]; intros groups; simpl; [done|].
  rewrite IH, group_step_lookup. unfold records_of. rewrite filter_cons.
  fold (records_of c d records).
  destruct (decide (r_code r = c /\ r_date r = d)) as [H|H]; simpl.
  - destruct (records_of c d records); simpl; [done|].
    by rewrite <- app_assoc.
  - done.
Qed.

Lemma daily_summary_lookup (records : list PunchRecord) (c : string) (d : Z) :
  calculate_daily_summary records !! c ≫= (fun m => m !! d) =
  match records_of c d records with
  | [] => None
  | l => Some (_calculate_day_summary l)
  end.
Proof.
  unfold calculate_daily_summary. simpl. rewrite lookup_fmap.
  pose proof (group_loop_lookup records ∅ c d) as H.
  rewrite lookup_empty in H. simpl in H.
  destruct (fold_left group_step records ∅ !! c) as [m|]; simpl in *.
  - rewrite lookup_fmap, H. by destruct (records_of c d records).
  - by destruct (records_of c d records).
Qed.

(** X3. [calculate_daily_summary] has a summary for an employee and a date
    exactly when some record carries that code and date, and it is then
    the summary of all the records of that code and date, in the order of
    the input; a key without records has no summary. *)
Theorem X3_daily_summary_groups (records : list PunchRecord) (c : string) (d : Z) :
  calculate_daily_summary records !! c ≫= (fun m => m !! d) =
    match records_of c d records with
    | [] => None
    | l => Some (_calculate_day_summary l)
    end /\
  (is_Some (calculate_daily_summary records !! c ≫= (fun m => m !! d)) <->
   exists r, r ∈ records /\ r_code r = c /\ r_date r = d).
Proof.
  split; [apply daily_summary_lookup|]. rewrite daily_summary_lookup.
  split.
  - destruct (records_of c d records) as [|r l] eqn:Hr; [by intros [? ?]|].
    intros _. exists r.
    assert (Hin : r ∈ records_of c d records) by (rewrite Hr; left).
    unfold records_of in Hin. apply list_elem_of_filter in Hin as [[? ?] ?]. done.
  - intros (r & Hin & Hc & Hd).
    assert (Hr : r ∈ records_of c d records)
      by (unfold records_of; apply list_elem_of_filter; done).
    destruct (records_of c d records); [by apply elem_of_nil in Hr|by eexists].
Qed.

(** ** Bounds on the minutes of a day *)

Lemma calculate_from_pairs_nonneg (ins outs : list time) : 0 <= _calculate_from_pairs ins outs.
Proof.
  unfold _calculate_from_pairs. destruct ins; [lia|]. destruct outs; [lia|].
  apply (pair_loop_mono _ _ (0, ∅)).
Qed.

Lemma bind_earliest_length (R : time -> time -> Prop) `{!RelDecision R}
    (a o : time) (outs rest : list time) :
  spec_bind_earliest R a outs = Some (o, rest) ->
  length outs = S (length rest) /\ o ∈ outs.
Proof.
  revert rest. induction outs as [|b outs IH]; intros rest; simpl; [done|].
  case_decide.
  - intros [= <- <-]. split; [done|left].
  - destruct (spec_bind_earliest R a outs) as [[m r]|]; [|done].
    intros [= <- <-]. destruct (IH r eq_refl) as [Hl Hin]. simpl.
    split; [by rewrite Hl|by right].
Qed.

Lemma greedy_minutes_bound (R : time -> time -> Prop) `{!RelDecision R}
    (ins outs : list time) :
  Forall valid_time ins -> Forall valid_time outs ->
  spec_matched_minutes (spec_greedy_pairs R ins outs) <=
  1439 * Z.of_nat (min (length ins) (length outs)).
Proof.
  intros Hi. revert outs. induction Hi as [|a ins Ha Hi IH]; intros outs Ho.
  - unfold spec_matched_minutes. simpl. lia.
  - cbn [spec_greedy_pairs].
    destruct (spec_bind_earliest R a outs) as [[o rest]|] eqn:Hb.
    + destruct (bind_earliest_length R a o outs rest Hb) as [Hl Hin].
      assert (Hr : Forall valid_time rest).
      { rewrite Forall_forall in Ho. apply Forall_forall. intros x Hx.
        apply Ho. by eapply bind_earliest_subset. }
      specialize (IH rest Hr). rewrite Forall_forall in Ho.
      specialize (Ho o Hin).
      assert (Hm : Z.of_nat (min (length (a :: ins)) (length outs)) =
                   Z.succ (Z.of_nat (min (length ins) (length rest))))
        by (rewrite Hl; simpl; lia).
      rewrite Hm. unfold spec_matched_minutes in *. cbn [map foldr].
      unfold spec_pair_minutes at 1. cbn [fst snd].
      unfold valid_time, time_minutes in *.
      remember (foldr Z.add 0 (map spec_pair_minutes (spec_greedy_pairs R ins rest))) as X.
      remember (Z.of_nat (length ins `min` length rest)) as Y.
      clear -IH Ha Ho. lia.
    + specialize (IH outs Ho).
      assert (Hm : Z.of_nat (min (length ins) (length outs)) <=
                   Z.of_nat (min (length (a :: ins)) (length outs)))
        by (simpl length; lia).
      unfold spec_matched_minutes in *. cbn [map foldr].
      unfold spec_pair_minutes at 1. cbn [fst snd].
      remember (foldr Z.add 0 (map spec_pair_minutes (spec_greedy_pairs R ins outs))) as X.
      clear -IH Hm. lia.
Qed.

(** X4. For times [datetime.time] accepts, [_calculate_from_pairs] returns
    at most 1439 minutes for each IN that can be matched to an OUT of its
    own: the total lies between 0 and 1439 times the smaller of the two
    list lengths. *)
Theorem X4_calculate_from_pairs_bound (ins outs : list time) :
  Forall valid_time ins -> Forall valid_time outs ->
  0 <= _calculate_from_pairs ins outs <=
  1439 * Z.of_nat (min (length ins) (length outs)).
Proof.
  intros Hi Ho. split; [apply calculate_from_pairs_nonneg|].
  rewrite calculate_from_pairs_greedy. unfold minute_greedy_total.
  rewrite <- (Permutation_length (sorted_Permutation ins)).
  rewrite <- (Permutation_length (sorted_Permutation outs)).
  apply greedy_minutes_bound; by rewrite sorted_Permutation.
Qed.

Lemma X4_calculate_from_pairs_bound_witness :
  0 <= _calculate_from_pairs [hm 9 0; hm 9 30; hm 14 0] [hm 12 0; hm 13 0] <= 1439 * 2.
Proof.
  apply (X4_calculate_from_pairs_bound [hm 9 0; hm 9 30; hm 14 0] [hm 12 0; hm 13 0]);
    repeat constructor; simpl; lia.
Defined.

Lemma day_total_nonneg_aux (records : list PunchRecord) :
  valid_totals records ->
  0 <= total_office_minutes (_calculate_day_summary records).
Proof.
  intros Hv. unfold _calculate_day_summary. rewrite day_loop_spec. simpl.
  unfold valid_totals in Hv.
  destruct (omap r_total_time records) as [|t l]; simpl.
  - apply calculate_from_pairs_nonneg.
  - apply Forall_cons in Hv as [Ht _]. unfold valid_time in Ht. lia.
Qed.

(** X5. When the device totals of a day are times [datetime.time]
    accepts, the total office minutes of the day are never negative, and
    they are below 1440 when a device total is used. *)
Theorem X5_day_total_nonneg (records : list PunchRecord) :
  valid_totals records ->
  0 <= total_office_minutes (_calculate_day_summary records) /\
  (omap r_total_time records <> [] ->
   total_office_minutes (_calculate_day_summary records) <= 1439).
Proof.
  intros Hv. split; [by apply day_total_nonneg_aux|].
  unfold _calculate_day_summary. rewrite day_loop_spec. simpl.
  unfold valid_totals in Hv.
  destruct (omap r_total_time records) as [|t l]; simpl; [done|].
  apply Forall_cons in Hv as [Ht _]. unfold valid_time in Ht. intros _. lia.
Qed.

Lemma X5_day_total_nonneg_witness :
  0 <= total_office_minutes (_calculate_day_summary c5_day) /\
  total_office_minutes (_calculate_day_summary c5_day) <= 1439.
Proof.
  destruct (X5_day_total_nonneg c5_day) as [H1 H2].
  - repeat constructor; simpl; lia.
  - split; [exact H1|]. apply H2. discriminate.
Defined.

(** ** The status of a week in whole minutes *)

Lemma weekly_of_fields (self : TimeCalculator) (ws we : Z)
    (ds : gmap Z DailySummary) :
  let t := spec_sum_minutes (spec_restricted ws we ds) in
  let n := spec_office_days (spec_restricted ws we ds) in
  let e := n * expected_hours_per_day self * 60 in
  let c := if decide (0 < e) then percent_of t e else 0%Q in
  let f := if decide (0 < e) then float_percent t e else 0%Q in
  weekly_of self ws we ds = mkWeekly ws we t n e (py_round2 f) (_get_status_color c).
Proof. unfold weekly_of. rewrite week_fold_spec. reflexivity. Qed.



(** ** Days in a window *)

Lemma restricted_size (ws we : Z) (ds : gmap Z DailySummary) :
  Z.of_nat (size (spec_restricted ws we ds)) <= Z.max 0 (we - ws + 1).
Proof.
  rewrite <- (size_dom (D := gset Z)).
  assert (Hsub : dom (spec_restricted ws we ds) ⊆
                 (list_to_set (seqZ ws (we - ws + 1)) : gset Z)).
  { intros d Hd. apply elem_of_dom in Hd as [s Hs].
    unfold spec_restricted in Hs. apply map_lookup_filter_Some in Hs as [_ Hw].
    simpl in Hw. apply elem_of_list_to_set, elem_of_seqZ. lia. }
  apply subseteq_size in Hsub.
  rewrite size_list_to_set in Hsub by apply NoDup_seqZ.
  rewrite length_seqZ in Hsub. lia.
Qed.

(** X7. The office-day count of a weekly summary is at least 0 and at
    most the number of days of the window (7 for a Monday to Sunday
    window), and at most the number of days the employee has a summary
    for. *)
Theorem X7_weekly_office_days_bound (self : TimeCalculator)
    (daily_summaries : gmap string (gmap Z DailySummary)) (emp : string)
    (date_summaries : gmap Z DailySummary)
    (ws we : Z) (reqs : option (gmap string Z)) (w : WeeklySummary) :
  daily_summaries !! emp = Some date_summaries ->
  calculate_weekly_summary self daily_summaries ws we reqs !! emp = Some w ->
  0 <= wfo_days w <= Z.max 0 (we - ws + 1) /\
  wfo_days w <= Z.of_nat (size date_summaries).
Proof.
  intros Hl. rewrite weekly_lookup, Hl. simpl. intros [= <-].
  rewrite weekly_of_fields. simpl. unfold spec_office_days.
  pose proof (restricted_size ws we date_summaries) as Hr.
  assert (H1 : (size (filter (fun p : Z * DailySummary =>
                      status p.2 = PRESENT \/ status p.2 = PARTIAL)
                    (spec_restricted ws we date_summaries)) <=
                size (spec_restricted ws we date_summaries))%nat)
    by apply map_subseteq_size, map_filter_subseteq.
  assert (H2 : (size (spec_restricted ws we date_summaries) <= size date_summaries)%nat)
    by apply map_subseteq_size, map_filter_subseteq.
  lia.
Qed.

Lemma X7_weekly_office_days_bound_witness :
  exists w,
    calculate_weekly_summary (mkCalculator 8 2) c4_daily 739019 739025 None
      !! "E1" = Some w /\
    0 <= wfo_days w <= 7 /\ wfo_days w <= 3.
Proof.
  eexists. split; [reflexivity|].
  apply (X7_weekly_office_days_bound (mkCalculator 8 2) c4_daily "E1"
           {[ 739021 := mkDaily 400 PRESENT None None None None;
              739022 := mkDaily 361 PRESENT None None None None;
              739030 := mkDaily 500 PRESENT None None None None ]}
           739019 739025 None _ eq_refl eq_refl).
Defined.

(** ** An office day is worth six hours *)

Lemma day_present_total (records : list PunchRecord) :
  status (_calculate_day_summary records) ∈ [PRESENT; PARTIAL] ->
  360 <= total_office_minutes (_calculate_day_summary records).
Proof.
  unfold _calculate_day_summary. simpl. case_decide; [done|].
  intros [H1|H1]%elem_of_cons; [done|].
  by apply list_elem_of_singleton in H1.
Qed.

Lemma valid_totals_records_of (c : string) (d : Z) (records : list PunchRecord) :
  valid_totals records -> valid_totals (records_of c d records).
Proof.
  unfold valid_totals, records_of.
  induction records as [|r records IH]; [done|]. rewrite filter_cons. simpl.
  intros H. assert (Hr : Forall valid_time (omap r_total_time records)).
  { destruct (r_total_time r); [by apply Forall_cons in H as [_ ?]|done]. }
  case_decide; [|by apply IH]. simpl.
  destruct (r_total_time r) as [t|] eqn:Ht; [|by apply IH].
  apply Forall_cons in H as [Hv _]. constructor; [done|by apply IH].
Qed.

Lemma daily_summary_entry (records : list PunchRecord) (c : string) (d : Z)
    (ds : gmap Z DailySummary) (s : DailySummary) :
  calculate_daily_summary records !! c = Some ds -> ds !! d = Some s ->
  s = _calculate_day_summary (records_of c d records).
Proof.
  intros Hc Hd. pose proof (daily_summary_lookup records c d) as H.
  rewrite Hc in H. simpl in H. rewrite Hd in H.
  destruct (records_of c d records); [done|]. by injection H.
Qed.

Lemma week_fold_floor (ws we : Z) (ds : gmap Z DailySummary) :
  (forall d s, ds !! d = Some s ->
     0 <= total_office_minutes s /\
     (status s ∈ [PRESENT; PARTIAL] -> 360 <= total_office_minutes s)) ->
  0 <= (map_fold (week_step ws we) (0, 0) ds).2 /\
  360 * (map_fold (week_step ws we) (0, 0) ds).2 <=
    (map_fold (week_step ws we) (0, 0) ds).1.
Proof.
  induction ds as [|d s m Hd IH] using map_ind; intros H.
  - rewrite map_fold_empty. simpl. lia.
  - rewrite week_fold_insert by done.
    assert (Hm : forall d' s', m !! d' = Some s' ->
              0 <= total_office_minutes s' /\
              (status s' ∈ [PRESENT; PARTIAL] -> 360 <= total_office_minutes s')).
    { intros d' s' Hl. apply (H d'). rewrite lookup_insert_ne; [done|].
      intros ->. by rewrite Hd in Hl. }
    destruct (IH Hm) as [IH1 IH2].
    destruct (H d s (lookup_insert_eq _ _ _)) as [Hs1 Hs2].
    destruct (map_fold (week_step ws we) (0, 0) m) as [t n].
    unfold week_step. simpl in *. repeat case_decide; simpl; try lia.
    specialize (Hs2 ltac:(done)). lia.
Qed.

(** X8. For an upload whose device totals are valid times and a policy of
    1 to 8 expected hours per day, a weekly summary with at least one
    office day has at least 360 minutes per office day and is never RED:
    every office day was given PRESENT for 6 hours or more. *)
Theorem X8_office_week_never_red (self : TimeCalculator) (records : list PunchRecord)
    (ws we : Z) (reqs : option (gmap string Z)) (emp : string) (w : WeeklySummary) :
  valid_totals records ->
  0 < expected_hours_per_day self <= 8 ->
  calculate_weekly_summary self (calculate_daily_summary records) ws we reqs !! emp
    = Some w ->
  0 < wfo_days w ->
  360 * wfo_days w <= w_total_office_minutes w /\ w_status w <> RED.
Proof.
  intros Hv Hh. rewrite weekly_lookup.
  destruct (calculate_daily_summary records !! emp) as [ds|] eqn:Hds; [|done].
  simpl. intros [= <-]. unfold weekly_of.
  assert (Hday : forall d s, ds !! d = Some s ->
            0 <= total_office_minutes s /\
            (status s ∈ [PRESENT; PARTIAL] -> 360 <= total_office_minutes s)).
  { intros d s Hl. rewrite (daily_summary_entry records emp d ds s Hds Hl). split.
    - apply day_total_nonneg_aux. by apply valid_totals_records_of.
    - apply day_present_total. }
  destruct (week_fold_floor ws we ds Hday) as [Hn Hfloor].
  destruct (map_fold (week_step ws we) (0, 0) ds) as [t n]. simpl in *.
  intros Hpos. split; [done|].
  assert (He : 0 < n * expected_hours_per_day self * 60) by nia.
  rewrite decide_True by done. rewrite status_color_minutes by done.
  rewrite decide_False by nia. by case_decide.
Qed.

Lemma X8_office_week_never_red_witness :
  exists w,
    calculate_weekly_summary (mkCalculator 8 2) (calculate_daily_summary c1_day)
      739019 739025 None !! "E1" = Some w /\
    360 * wfo_days w <= w_total_office_minutes w /\ w_status w <> RED.
Proof.
  eexists. split; [vm_compute; reflexivity|].
  apply (X8_office_week_never_red (mkCalculator 8 2) c1_day 739019 739025 None "E1").
  - constructor.
  - simpl. lia.
  - vm_compute. reflexivity.
  - simpl. lia.
Defined.

(** ** The compliance flag of the WFO report *)

Lemma stored_lt_70 (t m : Z) :
  0 < m -> m * 60 < 20000 -> 10 * t < 7 * (m * 60) ->
  ~ (70 <= py_round2 (float_percent t (m * 60)))%Q.
Proof.
  intros Hm Hlt H1.
  pose proof (float_percent_le t (m * 60) 13985 19980 ltac:(lia) ltac:(lia)) as H.
  apply py_round2_mono in H.
  assert (Hc : (py_round2 (fl (fl (13985 # 19980) * 100)) < 70)%Q)
    by (vm_compute; reflexivity).
  lra.
Qed.

Lemma stored_ge_70 (t e : Z) :
  0 < e -> 7 * e <= 10 * t -> (70 <= py_round2 (float_percent t e))%Q.
Proof.
  intros He H1. apply py_round2_ge_70.
  pose proof (float_percent_ge t e 7 10 He ltac:(lia)) as H.
  assert (Hc : (70 <= fl (fl (7 # 10) * 100))%Q) by (vm_compute; discriminate).
  lra.
Qed.

Lemma weekly_of_compliant (self : TimeCalculator) (ws we : Z)
    (ds : gmap Z DailySummary) :
  expected_minutes (weekly_of self ws we ds) < 20000 ->
  is_compliant (weekly_of self ws we ds) = true <->
  w_status (weekly_of self ws we ds) <> RED.
Proof.
  rewrite weekly_of_fields. simpl.
  unfold is_compliant. simpl. rewrite bool_decide_eq_true.
  set (t := spec_sum_minutes (spec_restricted ws we ds)).
  set (m := spec_office_days (spec_restricted ws we ds) * expected_hours_per_day self).
  intros Hlt. destruct (decide (0 < m * 60)) as [He|He].
  - rewrite status_color_minutes by done.
    destruct (decide (10 * t < 7 * (m * 60))) as [Hr|Hr].
    + split; [|done]. intros Hc. exfalso.
      apply (stored_lt_70 t m); [lia|done|done|done].
    + split; [intros _; by case_decide|]. intros _.
      apply stored_ge_70; [done|lia].
  - split; [|done]. intros Hc. vm_compute in Hc. by destruct Hc.
Qed.

(** X9. For a weekly summary of [calculate_weekly_summary] with less than
    20000 expected minutes (any week of at most 7 office days at up to 47
    expected hours), the flag [is_compliant] of the WFO report, taken
    from the stored and rounded percentage, is set exactly when the status
    is not RED: rounding to two decimals never lifts a RED week to 70. *)
Theorem X9_is_compliant_not_red (self : TimeCalculator)
    (daily_summaries : gmap string (gmap Z DailySummary)) (emp : string)
    (ws we : Z) (reqs : option (gmap string Z)) (w : WeeklySummary) :
  calculate_weekly_summary self daily_summaries ws we reqs !! emp = Some w ->
  expected_minutes w < 20000 ->
  is_compliant w = true <-> w_status w <> RED.
Proof.
  rewrite weekly_lookup. destruct (daily_summaries !! emp) as [ds|]; [|done].
  simpl. intros [= <-]. apply weekly_of_compliant.
Qed.

Lemma X9_is_compliant_not_red_witness :
  exists w,
    calculate_weekly_summary (mkCalculator 8 2) c4_daily 739019 739025 None
      !! "E1" = Some w /\
    (is_compliant w = true <-> w_status w <> RED).
Proof.
  eexists. split; [reflexivity|].
  apply (X9_is_compliant_not_red (mkCalculator 8 2) c4_daily "E1" 739019 739025 None
           _ eq_refl).
  vm_compute. reflexivity.
Defined.

(** ** Every date in one week *)

Lemma week_bounds_unique (d m : Z) :
  weekday m = 0 -> m <= d <= m + 6 -> get_week_bounds d = (m, m + 6).
Proof.
  unfold get_week_bounds, weekday. intros Hm Hd.
  pose proof (Z.div_mod (m + 6) 7 ltac:(lia)) as H1.
  pose proof (Z.div_mod (d + 6) 7 ltac:(lia)) as H2.
  pose proof (Z.mod_pos_bound (d + 6) 7 ltac:(lia)) as H3.
  f_equal; lia.
Qed.

Lemma week_of_date_unique (dates : list Z) (d : Z) (w : Z * Z) :
  w ∈ get_all_weeks dates -> in_week d w -> w = get_week_bounds d.
Proof.
  intros Hw Hin. apply elem_of_get_all_weeks in Hw as (d' & _ & ->).
  unfold in_week, get_week_bounds in Hin. simpl in Hin.
  symmetry. apply (week_bounds_unique d (d' - weekday d')).
  - apply weekday_monday.
  - lia.
Qed.

(** X10. Every date given to [get_all_weeks] lies in exactly one of the
    windows returned, the one of [get_week_bounds]; the windows do not
    overlap (each ends before the next begins), and there are no more
    windows than dates. *)
Theorem X10_weeks_partition_dates (dates : list Z) :
  (forall d, d ∈ dates ->
     get_week_bounds d ∈ get_all_weeks dates /\ in_week d (get_week_bounds d) /\
     forall w, w ∈ get_all_weeks dates -> in_week d w -> w = get_week_bounds d) /\
  StronglySorted (fun a b : Z * Z => a.2 < b.1) (get_all_weeks dates) /\
  (length (get_all_weeks dates) <= length dates)%nat.
Proof.
  split; [|split].
  - intros d Hd. split; [|split].
    + apply elem_of_get_all_weeks. by exists d.
    + unfold in_week, get_week_bounds. simpl. pose proof (weekday_range d). lia.
    + intros w. apply week_of_date_unique.
  - pose proof (get_all_weeks_increasing dates) as Hs.
    assert (Hw : Forall (fun w : Z * Z => weekday w.1 = 0 /\ w.2 = w.1 + 6)
                   (get_all_weeks dates)).
    { apply Forall_forall. intros w Hin.
      apply elem_of_get_all_weeks in Hin as (d & _ & ->). simpl.
      split; [apply weekday_monday|done]. }
    induction Hs as [|a l Hs IH Ha]; [constructor|].
    apply Forall_cons in Hw as [[Ha1 Ha2] Hw]. constructor; [by apply IH|].
    rewrite Forall_forall in Ha, Hw. apply Forall_forall. intros b Hb.
    specialize (Ha b Hb). destruct (Hw b Hb) as [Hb1 _].
    unfold weekday in Ha1, Hb1.
    pose proof (Z.div_mod (a.1 + 6) 7 ltac:(lia)).
    pose proof (Z.div_mod (b.1 + 6) 7 ltac:(lia)). lia.
  - rewrite get_all_weeks_set, merge_sort_Permutation.
    rewrite <- (length_fmap get_week_bounds dates).
    remember (get_week_bounds <$> dates) as l. clear Heql.
    induction l as [|x l IH]; simpl.
    + by rewrite elements_empty.
    + destruct (decide (x ∈ (list_to_set l : gset (Z * Z)))) as [Hx|Hx].
      * rewrite (subseteq_union_1_L {[x]} (list_to_set l))
          by (by apply singleton_subseteq_l). lia.
      * rewrite elements_union_singleton by done. simpl. lia.
Qed.

Lemma X10_weeks_partition_dates_witness :
  get_week_bounds (ymd 2024 5 15) ∈
    get_all_weeks [ymd 2024 5 22; ymd 2024 5 15; ymd 2024 5 13] /\
  in_week (ymd 2024 5 15) (get_week_bounds (ymd 2024 5 15)) /\
  forall w, w ∈ get_all_weeks [ymd 2024 5 22; ymd 2024 5 15; ymd 2024 5 13] ->
            in_week (ymd 2024 5 15) w -> w = get_week_bounds (ymd 2024 5 15).
Proof.
  apply (proj1 (X10_weeks_partition_dates [ymd 2024 5 22; ymd 2024 5 15; ymd 2024 5 13])).
  apply list_elem_of_further, list_elem_of_here.
Defined.

(** ** The weeks of an upload share out the days *)

Lemma sum_fmap_add {A} (f g : A -> Z) (l : list A) :
  foldr Z.add 0 ((fun x => f x + g x) <$> l) =
  foldr Z.add 0 (f <$> l) + foldr Z.add 0 (g <$> l).
Proof.
  induction l as [|a l IH]; [done|].
  rewrite !fmap_cons. cbn [foldr]. rewrite IH. lia.
Qed.

Lemma sum_fmap_zero {A} (g : A -> Z) (l : list A) :
  (forall x, x ∈ l -> g x = 0) -> foldr Z.add 0 (g <$> l) = 0.
Proof.
  induction l as [|a l IH]; intros H; [done|].
  rewrite fmap_cons. cbn [foldr].
  rewrite (H a) by left. rewrite IH; [done|]. intros x Hx. apply H. by right.
Qed.

Lemma sum_one_week (W : list (Z * Z)) (d x : Z) (w0 : Z * Z) :
  NoDup W -> w0 ∈ W -> in_week d w0 ->
  (forall w, w ∈ W -> in_week d w -> w = w0) ->
  foldr Z.add 0 ((fun w => if decide (in_week d w) then x else 0) <$> W) = x.
Proof.
  intros Hnd. induction Hnd as [|a l Ha Hnd IH]; intros Hin H0 Hu.
  - by apply elem_of_nil in Hin.
  - rewrite fmap_cons. cbn [foldr]. destruct (decide (a = w0)) as [->|Hne].
    + rewrite decide_True by done. rewrite sum_fmap_zero; [lia|].
      intros w Hw. rewrite decide_False; [done|]. intros Hd.
      apply Ha. rewrite <- (Hu w); [done|by right|done].
    + rewrite decide_False.
      * rewrite IH; [lia| |done|].
        -- apply elem_of_cons in Hin as [?|?]; [congruence|done].
        -- intros w Hw. apply Hu. by right.
      * intros Hd. apply Hne. apply Hu; [left|done].
Qed.

Lemma week_fold_window (w : Z * Z) (ds : gmap Z DailySummary) :
  map_fold (week_step w.1 w.2) (0, 0) ds =
  (spec_sum_minutes (spec_restricted w.1 w.2 ds),
   spec_office_days (spec_restricted w.1 w.2 ds)).
Proof. apply week_fold_spec. Qed.

Lemma weeks_share_out (W : list (Z * Z)) (ds : gmap Z DailySummary) :
  NoDup W ->
  (forall d, is_Some (ds !! d) ->
     exists w0, w0 ∈ W /\ in_week d w0 /\ forall w, w ∈ W -> in_week d w -> w = w0) ->
  foldr Z.add 0 ((fun w => (map_fold (week_step w.1 w.2) (0, 0) ds).1) <$> W) =
    spec_sum_minutes ds /\
  foldr Z.add 0 ((fun w => (map_fold (week_step w.1 w.2) (0, 0) ds).2) <$> W) =
    spec_office_days ds.
Proof.
  intros Hnd. induction ds as [|d s m Hd IH] using map_ind; intros Hc.
  - split.
    + rewrite sum_fmap_zero; [|intros; by rewrite map_fold_empty].
      unfold spec_sum_minutes. by rewrite map_to_list_empty.
    + rewrite sum_fmap_zero; [|intros; by rewrite map_fold_empty].
      unfold spec_office_days. by rewrite map_filter_empty, map_size_empty.
  - destruct IH as [IH1 IH2].
    { intros d' [s' Hs']. apply Hc. exists s'. rewrite lookup_insert_ne; [done|].
      intros ->. by rewrite Hd in Hs'. }
    destruct (Hc d) as (w0 & Hw0 & Hin & Hu).
    { exists s. apply lookup_insert_eq. }
    split.
    + assert (E : (fun w : Z * Z =>
                     (map_fold (week_step w.1 w.2) (0, 0) (<[d:=s]> m)).1) <$> W =
                  (fun w => (map_fold (week_step w.1 w.2) (0, 0) m).1 +
                     (if decide (in_week d w) then total_office_minutes s else 0)) <$> W).
      { apply list_fmap_ext. intros _ w _. rewrite week_fold_insert by done.
        unfold week_step, in_week. destruct (map_fold _ _ m) as [t n]. simpl.
        repeat case_decide; simpl; lia. }
      rewrite E, sum_fmap_add, IH1, (sum_one_week W d _ w0) by done.
      rewrite sum_minutes_insert by done. lia.
    + assert (E : (fun w : Z * Z =>
                     (map_fold (week_step w.1 w.2) (0, 0) (<[d:=s]> m)).2) <$> W =
                  (fun w => (map_fold (week_step w.1 w.2) (0, 0) m).2 +
                     (if decide (in_week d w)
                      then (if decide (status s ∈ [PRESENT; PARTIAL]) then 1 else 0)
                      else 0)) <$> W).
      { apply list_fmap_ext. intros _ w _. rewrite week_fold_insert by done.
        unfold week_step, in_week. destruct (map_fold _ _ m) as [t n]. simpl.
        repeat case_decide; simpl; lia. }
      rewrite E, sum_fmap_add, IH2, (sum_one_week W d _ w0) by done.
      rewrite office_days_insert by done. case_decide; lia.
Qed.

(** X11. Over the windows [get_all_weeks] returns for a list of dates that
    holds every date of an employee's daily summaries, the weekly
    summaries share out the days: their total office minutes add up to
    the total of all the employee's days and their office-day counts to
    the number of days with status PRESENT or PARTIAL; no day is lost or
    counted twice. *)
Theorem X11_weeks_share_out_days (self : TimeCalculator)
    (daily_summaries : gmap string (gmap Z DailySummary)) (emp : string)
    (date_summaries : gmap Z DailySummary) (dates : list Z) :
  daily_summaries !! emp = Some date_summaries ->
  (forall d, is_Some (date_summaries !! d) -> d ∈ dates) ->
  foldr Z.add 0
    (weekly_figure w_total_office_minutes self daily_summaries emp <$> get_all_weeks dates)
    = spec_sum_minutes date_summaries /\
  foldr Z.add 0
    (weekly_figure wfo_days self daily_summaries emp <$> get_all_weeks dates)
    = spec_office_days date_summaries.
Proof.
  intros Hl Hd.
  destruct (weeks_share_out (get_all_weeks dates) date_summaries) as [H1 H2].
  { apply get_all_weeks_NoDup. }
  { intros d Hs. exists (get_week_bounds d). split; [|split].
    - apply elem_of_get_all_weeks. exists d. split; [by apply Hd|done].
    - unfold in_week, get_week_bounds. simpl. pose proof (weekday_range d). lia.
    - intros w. apply week_of_date_unique. }
  rewrite <- H1, <- H2. split; apply (f_equal (foldr Z.add 0)), list_fmap_ext;
    intros _ w _; unfold weekly_figure; rewrite weekly_lookup, Hl; simpl;
    unfold weekly_of; by destruct (map_fold _ _ date_summaries).
Qed.

Lemma X11_weeks_share_out_days_witness :
  foldr Z.add 0
    (weekly_figure w_total_office_minutes (mkCalculator 8 2) c4_daily "E1" <$>
       get_all_weeks [739021; 739022; 739030]) = 1261 /\
  foldr Z.add 0
    (weekly_figure wfo_days (mkCalculator 8 2) c4_daily "E1" <$>
       get_all_weeks [739021; 739022; 739030]) = 3.
Proof.
  apply (X11_weeks_share_out_days (mkCalculator 8 2) c4_daily "E1"
           {[ 739021 := mkDaily 400 PRESENT None None None None;
              739022 := mkDaily 361 PRESENT None None None None;
              739030 := mkDaily 500 PRESENT None None None None ]}
           [739021; 739022; 739030] eq_refl).
  intros d [s Hs].
  repeat (apply lookup_insert_Some in Hs as [[<- _]|[_ Hs]];
          [repeat first [apply list_elem_of_here | apply list_elem_of_further]|]).
  apply lookup_singleton_Some in Hs as [<- _].
  repeat first [apply list_elem_of_here | apply list_elem_of_further].
Defined.

(** ** The colours are monotone *)

(** X12. A higher percentage never gets a worse colour, from any of the
    three functions that colour a percentage, whatever the thresholds
    configured; and the colour of a day in the individual report is never
    worse than the colour the classifier gives at its default thresholds. *)
Theorem X12_status_monotone (settings : Settings) (p q : Q) :
  (p <= q)%Q ->
  status_rank (get_status_color settings p) <= status_rank (get_status_color settings q) /\
  status_rank (_get_status_color p) <= status_rank (_get_status_color q) /\
  status_rank (daily_status_color p) <= status_rank (daily_status_color q) /\
  status_rank (get_status_color default_settings p) <= status_rank (daily_status_color p).
Proof.
  intros Hpq. unfold get_status_color, _get_status_color, daily_status_color.
  simpl. unfold inject_Z.
  generalize (THRESHOLD_RED settings # 1) (THRESHOLD_AMBER settings # 1).
  intros r a. repeat split; repeat case_decide; simpl; try lia; exfalso; lra.
Qed.

Lemma X12_status_monotone_witness :
  status_rank (get_status_color (mkSettings 8 3 2 60 80) 65) <=
  status_rank (get_status_color (mkSettings 8 3 2 60 80) (1723 # 20)).
Proof.
  apply (proj1 (X12_status_monotone (mkSettings 8 3 2 60 80) 65 (1723 # 20)
                  ltac:(discriminate))).
Defined.

(** ** Total and displayed pairs *)

(** X13. For times without seconds, the minutes [_calculate_from_pairs]
    returns are the sum, over the pairs [_create_pairs] shows, of
    (out - in) in minutes: the total of a day and its displayed pairs come
    from the same pairing. *)
Theorem X13_total_of_displayed_pairs (ins outs : list time) :
  Forall valid_time ins -> Forall whole_minute ins ->
  Forall valid_time outs -> Forall whole_minute outs ->
  exists pairs,
    _create_pairs ins outs = render_pair <$> pairs /\
    _calculate_from_pairs ins outs = spec_matched_minutes pairs /\
    pairs.*1 = sorted ins.
Proof.
  intros Hvi Hwi Hvo Hwo.
  exists (spec_greedy_pairs time_lt (sorted ins) (sorted outs)).
  split; [apply create_pairs_render|]. split.
  - rewrite calculate_from_pairs_greedy.
    by rewrite greedy_whole_minutes.
  - apply greedy_pairs_ins.
Qed.

Lemma X13_total_of_displayed_pairs_witness :
  exists pairs,
    _create_pairs [hm 9 30; hm 9 0] [hm 13 0; hm 12 0] = render_pair <$> pairs /\
    _calculate_from_pairs [hm 9 30; hm 9 0] [hm 13 0; hm 12 0] =
      spec_matched_minutes pairs /\
    pairs.*1 = sorted [hm 9 30; hm 9 0].
Proof.
  apply (X13_total_of_displayed_pairs [hm 9 30; hm 9 0] [hm 13 0; hm 12 0]);
    repeat constructor; simpl; lia.
Defined.

(** ** The counts of the WFO report *)

Lemma compliant_count_from (summaries : list WeeklySummary) (n : Z) :
  fold_left (fun compliant_count summary =>
               if is_compliant summary then compliant_count + 1 else compliant_count)
            summaries n =
  n + Z.of_nat (length (filter (fun w => is_compliant w = true) summaries)).
Proof.
  revert n. induction summaries as [|w l IH]; intros n; simpl; [lia|].
  rewrite IH, filter_cons. destruct (is_compliant w) eqn:Hw.
  - rewrite decide_True by done. simpl. lia.
  - rewrite decide_False by done. lia.
Qed.

Lemma py_round2_nonneg (x : Q) : (0 <= x)%Q -> (0 <= py_round2 x)%Q.
Proof.
  intros H. unfold py_round2. rewrite Qred_correct.
  assert (H1 : (inject_Z 0 <= x * 100)%Q) by (change (inject_Z 0) with 0%Q; lra).
  apply Qfloor_resp_le in H1. rewrite Qfloor_Z in H1.
  pose proof (round_half_even_floor (x * 100)) as H2.
  assert (H3 : 0 <= round_half_even (x * 100)) by lia.
  rewrite Zle_Qle in H3. change (inject_Z 0) with 0%Q in H3.
  generalize dependent (inject_Z (round_half_even (x * 100))). intros n H3.
  unfold Qdiv. change (/ 100)%Q with (1 # 100)%Q. lra.
Qed.

Lemma round_half_even_le (x : Q) (n : Z) :
  (x <= inject_Z n)%Q -> round_half_even x <= n.
Proof.
  intros H. unfold round_half_even.
  pose proof (Qfloor_le x) as Hlo.
  assert (Hf : Qfloor x <= n).
  { apply Qfloor_resp_le in H. by rewrite Qfloor_Z in H. }
  destruct (Qcompare (x - inject_Z (Qfloor x)) (1 # 2)) eqn:Hc.
  - apply Qeq_alt in Hc.
    assert (Hlt : (inject_Z (Qfloor x) < inject_Z n)%Q) by lra.
    rewrite <- Zlt_Qlt in Hlt. destruct (Z.even _); lia.
  - done.
  - apply Qgt_alt in Hc.
    assert (Hlt : (inject_Z (Qfloor x) < inject_Z n)%Q) by lra.
    rewrite <- Zlt_Qlt in Hlt. lia.
Qed.

Lemma py_round2_le_100 (x : Q) : (x <= 100)%Q -> (py_round2 x <= 100)%Q.
Proof.
  intros H. unfold py_round2. rewrite Qred_correct.
  assert (H1 : (x * 100 <= inject_Z 10000)%Q)
    by (change (inject_Z 10000) with 10000%Q; lra).
  apply round_half_even_le in H1.
  rewrite Zle_Qle in H1. change (inject_Z 10000) with 10000%Q in H1.
  generalize dependent (inject_Z (round_half_even (x * 100))). intros n H1.
  unfold Qdiv. change (/ 100)%Q with (1 # 100)%Q. lra.
Qed.

(** X14. In the summary of the WFO compliance report the compliant count
    lies between 0 and the number of employees, compliant and
    non-compliant add up to it, and the compliance rate lies between 0
    and 100: it is compliant / total x 100, computed in doubles and
    rounded to two decimals, when there is an employee, and the report
    of no employee has 0 employees, 0 compliant, 0 non-compliant and rate
    0. When the weekly summaries are those of [calculate_weekly_summary]
    with less than 20000 expected minutes, the non-compliant employees
    are exactly the RED ones. *)
Theorem X14_wfo_report_counts (summaries : list WeeklySummary) :
  (0 <= compliant (wfo_report_summary summaries) <=
     total_employees (wfo_report_summary summaries) /\
   compliant (wfo_report_summary summaries) +
     non_compliant (wfo_report_summary summaries) =
     total_employees (wfo_report_summary summaries) /\
   (0 <= compliance_rate (wfo_report_summary summaries) <= 100)%Q /\
   total_employees (wfo_report_summary summaries) = Z.of_nat (length summaries) /\
   (0 < total_employees (wfo_report_summary summaries) ->
    compliance_rate (wfo_report_summary summaries) =
    py_round2 (float_percent (compliant (wfo_report_summary summaries))
                             (total_employees (wfo_report_summary summaries)))) /\
   (total_employees (wfo_report_summary summaries) = 0 ->
    compliant (wfo_report_summary summaries) = 0 /\
    non_compliant (wfo_report_summary summaries) = 0 /\
    compliance_rate (wfo_report_summary summaries) = 0%Q) /\
   wfo_report_summary [] = mkCounts 0 0 0 0%Q) /\
  (Forall (fun w => exists self ws we ds,
                      w = weekly_of self ws we ds /\ expected_minutes w < 20000)
          summaries ->
   non_compliant (wfo_report_summary summaries) =
   Z.of_nat (length (filter (fun w => w_status w = RED) summaries))).
Proof.
  unfold wfo_report_summary, compliant_count. simpl.
  rewrite compliant_count_from.
  pose proof (length_filter (fun w => is_compliant w = true) summaries) as Hle.
  split; [split; [lia|split; [lia|split; [|split; [done|split; [|split; [|done]]]]]]|].
  - case_decide as Hn.
    + split.
      * apply py_round2_nonneg.
        match goal with
        | |- context [float_percent ?c ?n] =>
            pose proof (float_percent_ge c n 0 1 Hn ltac:(lia)) as H
        end.
        assert (Hc : (0 <= fl (fl (0 # 1) * 100))%Q) by (vm_compute; discriminate).
        lra.
      * apply py_round2_le_100.
        match goal with
        | |- context [float_percent ?c ?n] =>
            pose proof (float_percent_le c n 1 1 Hn ltac:(lia)) as H
        end.
        assert (Hc : (fl (fl (1 # 1) * 100) <= 100)%Q) by (vm_compute; discriminate).
        lra.
    + split; vm_compute; discriminate.
  - intros Hn. by rewrite decide_True.
  - intros Hn. rewrite decide_False by lia. split; [lia|]. split; [lia|reflexivity].
  - intros Hall. induction Hall as [|w l Hw Hall IH]; [done|].
    pose proof (length_filter (fun w => is_compliant w = true) l) as Hl.
    specialize (IH Hl). rewrite !filter_cons. simpl length.
    destruct Hw as (self & ws & we & ds & -> & He).
    pose proof (weekly_of_compliant self ws we ds He) as Hc.
    destruct (decide (is_compliant (weekly_of self ws we ds) = true)) as [H1|H1].
    + rewrite decide_False by (by apply Hc). simpl length. lia.
    + rewrite decide_True.
      * simpl length. lia.
      * destruct (decide (w_status (weekly_of self ws we ds) = RED)); [done|].
        destruct H1. by apply Hc.
Qed.

Lemma X14_wfo_report_counts_witness :
  non_compliant
    (wfo_report_summary
       [weekly_of (mkCalculator 8 2) 739019 739025
          {[ 739021 := mkDaily 400 PRESENT None None None None ]};
        weekly_of (mkCalculator 8 2) 739019 739025
          {[ 739021 := mkDaily 100 ABSENT None None None None ]}]) = 1.
Proof.
  refine (proj2 (X14_wfo_report_counts _) _).
  repeat constructor; eexists _, _, _, _; (split; [reflexivity|]);
    vm_compute; reflexivity.
Defined.

(** ** The daily chart of a week *)

Lemma daily_stats_loop_run (fuel : nat) (counts_map : gmap Z Z) (total : Z)
    (week_end current : Z) (stats : list (Z * Z * Z)) :
  week_end - current + 1 < Z.of_nat fuel ->
  daily_stats_loop fuel counts_map total week_end current stats =
  stats ++ (stats_entry counts_map total <$> seqZ current (week_end - current + 1)).
Proof.
  revert current stats. induction fuel as [|fuel IH]; intros current stats Hf.
  - rewrite seqZ_nil by lia. simpl. by rewrite app_nil_r.
  - simpl. case_decide as Hc.
    + replace (seqZ current (week_end - current + 1))
        with (current :: seqZ (current + 1) (week_end - (current + 1) + 1))
        by (rewrite (seqZ_cons current) by lia; do 2 f_equal; lia).
      rewrite IH by lia. rewrite fmap_cons, <- app_assoc. reflexivity.
    + rewrite seqZ_nil by lia. simpl. by rewrite app_nil_r.
Qed.

(** X15. The chart of [get_dashboard_daily_stats] has exactly one entry
    for each of the 7 days from the week start, in order, whatever the
    counts (the loop ends on its condition, more turns change nothing);
    the WFH count of a day is never negative, and WFO and WFH add up to
    the number of employees whenever the WFO count is between 0 and that
    number. *)
Theorem X15_daily_stats_week (counts_map : gmap Z Z) (total week_start : Z) :
  daily_stats counts_map total week_start =
    stats_entry counts_map total <$> seqZ week_start 7 /\
  (forall fuel, (8 <= fuel)%nat ->
     daily_stats_loop fuel counts_map total (week_start + 6) week_start [] =
     daily_stats counts_map total week_start) /\
  length (daily_stats counts_map total week_start) = 7%nat /\
  Forall (fun e : Z * Z * Z =>
            0 <= e.2 /\ (0 <= e.1.2 <= total -> e.1.2 + e.2 = total))
         (daily_stats counts_map total week_start).
Proof.
  assert (H : forall fuel, (8 <= fuel)%nat ->
            daily_stats_loop fuel counts_map total (week_start + 6) week_start [] =
            stats_entry counts_map total <$> seqZ week_start 7).
  { intros fuel Hf. rewrite daily_stats_loop_run by lia. simpl.
    by replace (week_start + 6 - week_start + 1) with 7 by lia. }
  assert (H8 : daily_stats counts_map total week_start =
               stats_entry counts_map total <$> seqZ week_start 7)
    by (apply (H 8%nat); lia).
  split; [exact H8|]. split; [|split].
  - intros fuel Hf. by rewrite H8, H.
  - rewrite H8, length_fmap, length_seqZ. reflexivity.
  - rewrite H8. apply Forall_fmap, Forall_forall. intros d _.
    unfold stats_entry. simpl. lia.
Qed.

Lemma X15_daily_stats_week_witness :
  daily_stats_loop 20 {[ 739020 := 3 ]} 5 (739019 + 6) 739019 [] =
  daily_stats {[ 739020 := 3 ]} 5 739019.
Proof.
  apply (proj1 (proj2 (X15_daily_stats_week {[ 739020 := 3 ]} 5 739019))). lia.
Defined.

(** ** The employees of the records *)

Lemma upsert_keys (employees : list (string * string)) (code name : string) :
  (upsert_employee employees code name).*1 =
  if decide (code ∈ employees.*1) then employees.*1 else employees.*1 ++ [code].
Proof.
  induction employees as [|[c n] rest IH].
  - simpl. destruct (decide (code ∈ [])) as [Hin|Hin]; [|done].
    by apply elem_of_nil in Hin.
  - cbn [upsert_employee]. rewrite fmap_cons. cbn [fst].
    destruct (decide (c = code)) as [->|Hc].
    + rewrite (decide_True (P := code ∈ code :: rest.*1)) by left.
      by destruct (decide (n = "" /\ name <> "")).
    + rewrite fmap_cons. cbn [fst]. rewrite IH.
      destruct (decide (code ∈ rest.*1)) as [Hin|Hin].
      * rewrite (decide_True (P := code ∈ c :: rest.*1)); [done|by right].
      * rewrite (decide_False (P := code ∈ c :: rest.*1)); [done|].
        intros [?|?]%elem_of_cons; [congruence|done].
Qed.

Lemma assoc_upsert (employees : list (string * string)) (code name c' : string) :
  assoc c' (upsert_employee employees code name) =
  if decide (c' = code) then
    Some (match assoc code employees with
          | Some n0 => if decide (n0 = "" /\ name <> "") then name else n0
          | None => name
          end)
  else assoc c' employees.
Proof.
  induction employees as [|[c n] rest IH]; simpl.
  - destruct (decide (code = c')) as [->|Hc].
    + by rewrite decide_True.
    + rewrite decide_False by congruence. done.
  - destruct (decide (c = code)) as [->|Hc].
    + destruct (decide (c' = code)) as [->|Hc'].
      * destruct (decide (n = "" /\ name <> "")); simpl; by rewrite decide_True.
      * destruct (decide (n = "" /\ name <> "")); simpl;
          by rewrite !decide_False by congruence.
    + simpl. rewrite IH. destruct (decide (c' = code)) as [->|Hc'].
      * by rewrite decide_False.
      * done.
Qed.

Lemma assoc_elem_of (employees : list (string * string)) (c n : string) :
  NoDup employees.*1 -> (c, n) ∈ employees <-> assoc c employees = Some n.
Proof.
  induction employees as [|[c0 n0] rest IH]; simpl; intros Hnd.
  - split; [by intros ?%elem_of_nil|done].
  - apply NoDup_cons in Hnd as [Hn Hnd]. destruct (decide (c0 = c)) as [->|Hc].
    + split.
      * intros [[= <-]|Hin]%elem_of_cons; [done|].
        destruct Hn. apply list_elem_of_fmap. by exists (c, n).
      * intros [= <-]. left.
    + rewrite <- IH by done. split.
      * intros [[= ? ?]|Hin]%elem_of_cons; [congruence|done].
      * intros Hin. by right.
Qed.

Lemma first_name_cons (c code name : string) (records : list (string * string)) :
  first_name c ((code, name) :: records) =
  if decide (code = c /\ name <> "") then name else first_name c records.
Proof. unfold first_name. rewrite filter_cons. simpl. by case_decide. Qed.

Lemma unique_employees_from (records employees : list (string * string)) :
  NoDup employees.*1 ->
  let result := fold_left (fun employees record =>
                             upsert_employee employees record.1 record.2)
                          records employees in
  NoDup result.*1 /\
  (forall c, c ∈ result.*1 <-> c ∈ employees.*1 \/ c ∈ records.*1) /\
  (forall c, assoc c result =
     match assoc c employees with
     | Some n0 => Some (if decide (n0 = "") then first_name c records else n0)
     | None => if decide (c ∈ records.*1) then Some (first_name c records) else None
     end).
Proof.
  revert employees. induction records as [|[code name] records IH];
    intros employees Hnd; simpl.
  - split; [done|]. split.
    + intros c. split; [by left|]. intros [?|?%elem_of_nil]; done.
    + intros c. destruct (assoc c employees) as [n0|].
      * unfold first_name. simpl. by case_decide; subst.
      * done.
  - assert (Hnd' : NoDup (upsert_employee employees code name).*1).
    { rewrite upsert_keys. case_decide; [done|]. apply NoDup_app.
      split; [done|]. split; [|apply NoDup_singleton].
      intros x Hx ->%list_elem_of_singleton. done. }
    destruct (IH _ Hnd') as (H1 & H2 & H3). split; [done|]. split.
    + intros c. rewrite H2, upsert_keys. case_decide as Hin.
      * split; [intros [?|?]; [by left|right; by right]|].
        intros [?|[->|?]%elem_of_cons]; [by left|by left|by right].
      * rewrite elem_of_app, list_elem_of_singleton.
        split; [intros [[? | ->] | ?]; [by left|right; left|right; by right]|].
        intros [?|[->|?]%elem_of_cons]; [left; by left|left; by right|by right].
    + intros c. rewrite H3, assoc_upsert, first_name_cons.
      destruct (decide (c = code)) as [->|Hc];
        destruct (assoc _ employees) as [n0|];
        repeat case_decide; subst; try done;
        rewrite ?elem_of_cons in *; naive_solver.
Qed.

(** X16. [get_unique_employees] returns one entry for each employee code
    of the records and no other; the name of a code is the first
    non-empty name among its records, and the empty name when all its
    records have an empty name. *)
Theorem X16_unique_employees (records : list (string * string)) :
  NoDup (get_unique_employees records).*1 /\
  (forall c, c ∈ (get_unique_employees records).*1 <-> c ∈ records.*1) /\
  (forall c n, (c, n) ∈ get_unique_employees records <->
               c ∈ records.*1 /\ n = first_name c records).
Proof.
  destruct (unique_employees_from records [] (NoDup_nil_2 (A:=string))) as (H1 & H2 & H3).
  simpl in *. fold (get_unique_employees records) in *.
  split; [done|]. split.
  - intros c. rewrite H2. split; [intros [?%elem_of_nil|?]; done|by right].
  - intros c n. rewrite (assoc_elem_of _ c n H1), H3.
    case_decide; split; try done.
    + by intros [= <-].
    + by intros [_ ->].
    + by intros [? _].
Qed.

(** ** No OUT time is shown twice *)

Lemma bind_earliest_perm (R : time -> time -> Prop) `{!RelDecision R}
    (a o : time) (outs rest : list time) :
  spec_bind_earliest R a outs = Some (o, rest) -> outs ≡ₚ o :: rest /\ R a o.
Proof.
  revert rest. induction outs as [|b outs IH]; intros rest; simpl; [done|].
  case_decide.
  - by intros [= <- <-].
  - destruct (spec_bind_earliest R a outs) as [[m r]|]; [|done].
    intros [= <- <-]. destruct (IH r eq_refl) as [Hp HR]. split; [|done].
    rewrite Hp. apply Permutation_swap.
Qed.

Lemma greedy_pairs_outs (R : time -> time -> Prop) `{!RelDecision R}
    (ins outs : list time) :
  omap snd (spec_greedy_pairs R ins outs) ⊆+ outs /\
  Forall (fun p : time * option time => forall o, p.2 = Some o -> R p.1 o)
         (spec_greedy_pairs R ins outs).
Proof.
  revert outs. induction ins as [|a ins IH]; intros outs; simpl.
  - split; [apply submseteq_nil_l|constructor].
  - destruct (spec_bind_earliest R a outs) as [[o rest]|] eqn:Hb.
    + destruct (bind_earliest_perm R a o outs rest Hb) as [Hp HR].
      destruct (IH rest) as [Hs Hf]. split.
      * simpl. rewrite Hp. by apply submseteq_skip.
      * constructor; [|done]. simpl. by intros ? [= <-].
    + destruct (IH outs) as [Hs Hf]. split; [done|].
      constructor; [|done]. simpl. by intros ? [=].
Qed.

(** X17. In the pairs [_create_pairs] shows, every OUT is strictly later
    than the IN it is paired with, and the OUT times shown are taken from
    the OUT times of the day without using any of them more often than it
    was punched; for times [datetime.time] accepts a shown duration is
    between 0 and 1439 minutes. *)
Theorem X17_displayed_pairs_sound (ins outs : list time) :
  exists pairs,
    _create_pairs ins outs = render_pair <$> pairs /\
    pairs.*1 = sorted ins /\
    omap snd pairs ⊆+ outs /\
    Forall (fun p : time * option time =>
              forall o, p.2 = Some o ->
                time_lt p.1 o /\
                (valid_time p.1 -> valid_time o ->
                 0 <= _time_to_minutes (Some o) - _time_to_minutes (Some p.1) <= 1439))
           pairs.
Proof.
  exists (spec_greedy_pairs time_lt (sorted ins) (sorted outs)).
  split; [apply create_pairs_render|]. split; [apply greedy_pairs_ins|].
  destruct (greedy_pairs_outs time_lt (sorted ins) (sorted outs)) as [Hs Hf].
  split.
  { pose proof (sorted_Permutation outs) as Hp.
    generalize dependent (sorted outs). intros souts Hs _ Hp. by rewrite <- Hp. }
  eapply Forall_impl; [exact Hf|]. intros [a oo] H o Ho. simpl in *.
  specialize (H o Ho). split; [done|].
  unfold valid_time, time_lt in *. lia.
Qed.

(** ** The colour of a day against the classifier *)

(** X18. At the default thresholds 70 and 90, the colour the individual
    report gives to a day's compliance is the colour of the classifier
    for every percentage except exactly 90, where the report says GREEN
    and the classifier AMBER. *)
Theorem X18_daily_colour_differs_at_90 (p : Q) :
  (daily_status_color p = get_status_color default_settings p <-> ~ (p == 90)%Q) /\
  ((p == 90)%Q ->
   daily_status_color p = GREEN /\ get_status_color default_settings p = AMBER).
Proof.
  split; [apply daily_status_color_default|]. intros Hp.
  unfold daily_status_color, get_status_color. simpl. unfold inject_Z.
  rewrite (decide_True (P := (90 <= p)%Q)) by lra.
  rewrite (decide_False (P := (p < _)%Q)) by lra.
  by rewrite (decide_True (P := (p <= _)%Q)) by lra.
Qed.

Lemma X18_daily_colour_differs_at_90_witness :
  daily_status_color (180 # 2) = GREEN /\
  get_status_color default_settings (180 # 2) = AMBER.
Proof.
  apply (proj2 (X18_daily_colour_differs_at_90 (180 # 2))). reflexivity.
Defined.

(** ** Worked examples *)

Example pairs_390 :
  _calculate_from_pairs [hm 9 0; hm 9 30] [hm 12 0; hm 13 0] = 390.
Proof. vm_compute. reflexivity. Qed.

Example pairs_same_minute :
  _calculate_from_pairs [hms 9 0 10] [hms 9 0 50; hm 10 0] = 60 /\
  _create_pairs [hms 9 0 10] [hms 9 0 50; hm 10 0] =
    [mkPair (Some "09:00") (Some "09:00") (Some "0h 0m")].
Proof. vm_compute. split; reflexivity. Qed.

Example day_summary_example :
  _calculate_day_summary
    [mkPunch "E1" 739021 (Some (hm 9 30)) (Some (hm 13 0)) None (Some "");
     mkPunch "E1" 739021 (Some (hm 9 0)) (Some (hm 12 0)) None (Some "P")] =
  mkDaily 390 PRESENT (Some (hm 9 0)) (Some (hm 13 0))
    (Some [mkPair (Some "09:00") (Some "12:00") (Some "3h 0m");
           mkPair (Some "09:30") (Some "13:00") (Some "3h 30m")]) (Some "P").
Proof. vm_compute. reflexivity. Qed.

Example ordinal_examples :
  ymd 2024 5 15 = 739021 /\ ymd 9999 12 31 = 3652059 /\ ymd 1 1 1 = 1.
Proof. vm_compute. auto. Qed.

Example weeks_example :
  get_all_weeks [ymd 2024 5 22; ymd 2024 5 15; ymd 2024 5 13] =
  [(ymd 2024 5 13, ymd 2024 5 19); (ymd 2024 5 20, ymd 2024 5 26)].
Proof. vm_compute. reflexivity. Qed.

Example round_examples :
  py_round2 (percent_of 650 960) = (6771 # 100)%Q /\
  py_round2 (percent_of 700 960) = Qred (7292 # 100) /\
  py_round2 0 = 0%Q /\ py_round2 (1 # 8) = (3 # 25)%Q.
Proof. vm_compute. auto. Qed.

(** Doubles: 0.1 is 3602879701896397 / 2^55; 0.7 x 100 and 0.9 x 100
    round to 70 and 90; 483 / 480 x 100 is a double just above 100.625,
    stored as 100.63; 537 / 480 x 100 is stored as 111.87 and
    23 / 160 x 100 as 14.37. *)
Example float_examples :
  (fl (1 # 10) == 3602879701896397 # 36028797018963968)%Q /\
  (float_percent 7 10 == 70)%Q /\ (float_percent 9 10 == 90)%Q /\
  Qred (float_percent 483 480) = (7080854882877441 # 70368744177664)%Q /\
  py_round2 (float_percent 483 480) = (10063 # 100)%Q /\
  py_round2 (float_percent 537 480) = (11187 # 100)%Q /\
  py_round2 (float_percent 23 160) = (1437 # 100)%Q /\
  py_round2 (float_percent 761 960) = (7927 # 100)%Q /\
  py_round2 (float_percent 600 480) = 125%Q.
Proof. vm_compute. auto 10. Qed.
